(** * NVM importer: camera geometry of [nvm_import/import_nvm_op.py]

    A shallow embedding of the geometric part of the importer:
    [invert_y_and_z_axis], [get_world_matrix_from_translation_vec] and the
    per-camera body of [add_cameras] (field of view and world matrix).

    Numbers: [mathutils] and [math] work on floating-point numbers.  They are
    modelled here by the real numbers [R]: rounding, infinities and NaN are
    outside the model, every arithmetic operation is the exact one. *)

From Stdlib Require Import Reals Lra Psatz RNsatz ZArith List Bool.
From Stdlib Require Ascii String.
Import String.StringSyntax.
Delimit Scope string_scope with string.
Import ListNotations.

Local Open Scope R_scope.

(** ** Exceptions *)

Inductive exn : Type :=
| IndexError
| TypeError
| AssertionError
| ZeroDivisionError
| IOError
| FormatError.

Inductive result (A : Type) : Type :=
| Ok (a : A)
| Raise (e : exn).

Arguments Ok {A} a.
Arguments Raise {A} e.

Definition bind {A B : Type} (r : result A) (k : A -> result B) : result B :=
  match r with
  | Ok a => k a
  | Raise e => Raise e
  end.

Notation "x <- r ;; k" := (bind r (fun x => k))
  (at level 61, r at next level, right associativity).

(** ** The [mathutils] values the importer uses *)

Module Mathutils.

(** [Vector] of size 3 and of size 4. *)
Record Vector3 : Type := mkVector3 { v3x : R; v3y : R; v3z : R }.
Record Vector4 : Type := mkVector4 { v4x : R; v4y : R; v4z : R; v4w : R }.

(** [Matrix], row-major as [mathutils] indexes it: [m[i]] is row [i]. *)
Record Matrix3 : Type := mkMatrix3 { m3r0 : Vector3; m3r1 : Vector3; m3r2 : Vector3 }.
Record Matrix4 : Type :=
  mkMatrix4 { m4r0 : Vector4; m4r1 : Vector4; m4r2 : Vector4; m4r3 : Vector4 }.

(** Unary minus. *)
Class Neg (A : Type) : Type := neg : A -> A.

#[global] Instance Neg_float : Neg R := Ropp.
#[global] Instance Neg_Vector3 : Neg Vector3 :=
  fun v => mkVector3 (- v3x v) (- v3y v) (- v3z v).
#[global] Instance Neg_Vector4 : Neg Vector4 :=
  fun v => mkVector4 (- v4x v) (- v4y v) (- v4z v) (- v4w v).

(** Subscription [c[i]] and item assignment [c[i] = e]; an index out of
    range raises [IndexError]. *)
Class Subscript (T E : Type) : Type :=
  { getitem : T -> nat -> result E;
    setitem : T -> nat -> E -> result T }.

#[global] Instance Subscript_Vector3 : Subscript Vector3 R :=
  {| getitem v i :=
       match i with
       | 0%nat => Ok (v3x v)
       | 1%nat => Ok (v3y v)
       | 2%nat => Ok (v3z v)
       | _ => Raise IndexError
       end;
     setitem v i e :=
       match i with
       | 0%nat => Ok (mkVector3 e (v3y v) (v3z v))
       | 1%nat => Ok (mkVector3 (v3x v) e (v3z v))
       | 2%nat => Ok (mkVector3 (v3x v) (v3y v) e)
       | _ => Raise IndexError
       end |}.

#[global] Instance Subscript_Vector4 : Subscript Vector4 R :=
  {| getitem v i :=
       match i with
       | 0%nat => Ok (v4x v)
       | 1%nat => Ok (v4y v)
       | 2%nat => Ok (v4z v)
       | 3%nat => Ok (v4w v)
       | _ => Raise IndexError
       end;
     setitem v i e :=
       match i with
       | 0%nat => Ok (mkVector4 e (v4y v) (v4z v) (v4w v))
       | 1%nat => Ok (mkVector4 (v4x v) e (v4z v) (v4w v))
       | 2%nat => Ok (mkVector4 (v4x v) (v4y v) e (v4w v))
       | 3%nat => Ok (mkVector4 (v4x v) (v4y v) (v4z v) e)
       | _ => Raise IndexError
       end |}.

#[global] Instance Subscript_Matrix3 : Subscript Matrix3 Vector3 :=
  {| getitem m i :=
       match i with
       | 0%nat => Ok (m3r0 m)
       | 1%nat => Ok (m3r1 m)
       | 2%nat => Ok (m3r2 m)
       | _ => Raise IndexError
       end;
     setitem m i e :=
       match i with
       | 0%nat => Ok (mkMatrix3 e (m3r1 m) (m3r2 m))
       | 1%nat => Ok (mkMatrix3 (m3r0 m) e (m3r2 m))
       | 2%nat => Ok (mkMatrix3 (m3r0 m) (m3r1 m) e)
       | _ => Raise IndexError
       end |}.

#[global] Instance Subscript_Matrix4 : Subscript Matrix4 Vector4 :=
  {| getitem m i :=
       match i with
       | 0%nat => Ok (m4r0 m)
       | 1%nat => Ok (m4r1 m)
       | 2%nat => Ok (m4r2 m)
       | 3%nat => Ok (m4r3 m)
       | _ => Raise IndexError
       end;
     setitem m i e :=
       match i with
       | 0%nat => Ok (mkMatrix4 e (m4r1 m) (m4r2 m) (m4r3 m))
       | 1%nat => Ok (mkMatrix4 (m4r0 m) e (m4r2 m) (m4r3 m))
       | 2%nat => Ok (mkMatrix4 (m4r0 m) (m4r1 m) e (m4r3 m))
       | 3%nat => Ok (mkMatrix4 (m4r0 m) (m4r1 m) (m4r2 m) e)
       | _ => Raise IndexError
       end |}.

(** [Vector.to_4d()] of a 3D vector appends the homogeneous coordinate 1. *)
Definition to_4d (v : Vector3) : Vector4 :=
  mkVector4 (v3x v) (v3y v) (v3z v) 1.

(** [Matrix()] is the 4x4 identity. *)
Definition Matrix_new : Matrix4 :=
  mkMatrix4 (mkVector4 1 0 0 0) (mkVector4 0 1 0 0)
            (mkVector4 0 0 1 0) (mkVector4 0 0 0 1).

(** [row[0:3] = v] on a row of a 4x4 matrix: the first three entries are
    overwritten, the fourth is kept. *)
Definition set_slice_0_3 (row : Vector4) (v : Vector3) : Vector4 :=
  mkVector4 (v3x v) (v3y v) (v3z v) (v4w row).

(** [Matrix.transpose()]. *)
Definition transpose4 (m : Matrix4) : Matrix4 :=
  mkMatrix4
    (mkVector4 (v4x (m4r0 m)) (v4x (m4r1 m)) (v4x (m4r2 m)) (v4x (m4r3 m)))
    (mkVector4 (v4y (m4r0 m)) (v4y (m4r1 m)) (v4y (m4r2 m)) (v4y (m4r3 m)))
    (mkVector4 (v4z (m4r0 m)) (v4z (m4r1 m)) (v4z (m4r2 m)) (v4z (m4r3 m)))
    (mkVector4 (v4w (m4r0 m)) (v4w (m4r1 m)) (v4w (m4r2 m)) (v4w (m4r3 m))).

Definition transpose3 (m : Matrix3) : Matrix3 :=
  mkMatrix3
    (mkVector3 (v3x (m3r0 m)) (v3x (m3r1 m)) (v3x (m3r2 m)))
    (mkVector3 (v3y (m3r0 m)) (v3y (m3r1 m)) (v3y (m3r2 m)))
    (mkVector3 (v3z (m3r0 m)) (v3z (m3r1 m)) (v3z (m3r2 m))).

Definition dot3 (a b : Vector3) : R :=
  v3x a * v3x b + v3y a * v3y b + v3z a * v3z b.

Definition dot4 (a b : Vector4) : R :=
  v4x a * v4x b + v4y a * v4y b + v4z a * v4z b + v4w a * v4w b.

(** [Matrix * Vector]: the matrix applied to the column vector. *)
Definition mul_m4_v4 (m : Matrix4) (v : Vector4) : Vector4 :=
  mkVector4 (dot4 (m4r0 m) v) (dot4 (m4r1 m) v) (dot4 (m4r2 m) v) (dot4 (m4r3 m) v).

Definition mul_m3_v3 (m : Matrix3) (v : Vector3) : Vector3 :=
  mkVector3 (dot3 (m3r0 m) v) (dot3 (m3r1 m) v) (dot3 (m3r2 m) v).

(** [Matrix * Matrix]. *)
Definition mul_m3 (a b : Matrix3) : Matrix3 :=
  let bt := transpose3 b in
  mkMatrix3
    (mkVector3 (dot3 (m3r0 a) (m3r0 bt)) (dot3 (m3r0 a) (m3r1 bt)) (dot3 (m3r0 a) (m3r2 bt)))
    (mkVector3 (dot3 (m3r1 a) (m3r0 bt)) (dot3 (m3r1 a) (m3r1 bt)) (dot3 (m3r1 a) (m3r2 bt)))
    (mkVector3 (dot3 (m3r2 a) (m3r0 bt)) (dot3 (m3r2 a) (m3r1 bt)) (dot3 (m3r2 a) (m3r2 bt))).

(** [m.col[3] = v]: the fourth column is overwritten. *)
Definition set_col3 (m : Matrix4) (v : Vector4) : Matrix4 :=
  mkMatrix4
    (mkVector4 (v4x (m4r0 m)) (v4y (m4r0 m)) (v4z (m4r0 m)) (v4x v))
    (mkVector4 (v4x (m4r1 m)) (v4y (m4r1 m)) (v4z (m4r1 m)) (v4y v))
    (mkVector4 (v4x (m4r2 m)) (v4y (m4r2 m)) (v4z (m4r2 m)) (v4z v))
    (mkVector4 (v4x (m4r3 m)) (v4y (m4r3 m)) (v4z (m4r3 m)) (v4w v)).

Definition identity3 : Matrix3 :=
  mkMatrix3 (mkVector3 1 0 0) (mkVector3 0 1 0) (mkVector3 0 0 1).

Definition det3 (m : Matrix3) : R :=
  let (a, b, c) := m3r0 m in
  let (d, e, f) := m3r1 m in
  let (g, h, i) := m3r2 m in
  a * (e * i - f * h) - b * (d * i - f * g) + c * (d * h - e * g).

(** The parts of a 4x4 homogeneous matrix. *)
Definition upper_left_3x3 (m : Matrix4) : Matrix3 :=
  mkMatrix3
    (mkVector3 (v4x (m4r0 m)) (v4y (m4r0 m)) (v4z (m4r0 m)))
    (mkVector3 (v4x (m4r1 m)) (v4y (m4r1 m)) (v4z (m4r1 m)))
    (mkVector3 (v4x (m4r2 m)) (v4y (m4r2 m)) (v4z (m4r2 m))).

Definition translation_column (m : Matrix4) : Vector3 :=
  mkVector3 (v4w (m4r0 m)) (v4w (m4r1 m)) (v4w (m4r2 m)).

Definition bottom_row (m : Matrix4) : Vector4 := m4r3 m.

End Mathutils.

Import Mathutils.

(** ** [import_nvm_op.py], value level

    Each function is followed statement by statement; an in-place update of a
    local object is a rebinding of the local name. *)

(** [get_world_matrix_from_translation_vec(translation_vec, rotation)] *)
Definition get_world_matrix_from_translation_vec
    (translation_vec : Vector3) (rotation : Matrix3) : result Matrix4 :=
  let t := to_4d translation_vec in
  let camera_rotation := Matrix_new in
  (* for row in range(3): camera_rotation[row][0:3] = rotation[row] *)
  camera_rotation <-
    fold_left
      (fun (acc : result Matrix4) (row : nat) =>
         m <- acc ;;
         src <- getitem rotation row ;;
         dst <- getitem m row ;;
         setitem m row (set_slice_0_3 dst src))
      (seq 0 3) (Ok camera_rotation) ;;
  let camera_rotation := transpose4 camera_rotation in
  let camera_center := neg (mul_m4_v4 camera_rotation t) in
  camera_center <- setitem camera_center 3 1 ;;
  let camera_rotation := camera_rotation (* .copy() *) in
  Ok (set_col3 camera_rotation camera_center).

(** [invert_y_and_z_axis(input_matrix_or_vector)], for anything that can be
    subscripted and whose items can be negated. *)
Definition invert_y_and_z_axis {T E : Type} `{Subscript T E} `{Neg E}
    (input_matrix_or_vector : T) : result T :=
  let output_matrix_or_vector := input_matrix_or_vector (* .copy() *) in
  e1 <- getitem output_matrix_or_vector 1 ;;
  output_matrix_or_vector <- setitem output_matrix_or_vector 1 (neg e1) ;;
  e2 <- getitem output_matrix_or_vector 2 ;;
  output_matrix_or_vector <- setitem output_matrix_or_vector 2 (neg e2) ;;
  Ok output_matrix_or_vector.

(** ** Cameras, points and the scene *)

(** Modelled from the spec: the class [Camera] of
    [nvm_import/nvm_file_handler.py], of which [add_cameras] reads the
    attributes [file_name], [width], [height], [calibration_mat] and the
    accessors [get_translation_vec()] and [get_rotation_mat()].  Width and
    height are optional integers, unset ([None]) until resolved. *)
Record Camera : Type := mkCamera
  { file_name : String.string;
    width : option Z;
    height : option Z;
    calibration_mat : Matrix3;
    get_translation_vec : Vector3;
    get_rotation_mat : Matrix3 }.

(** Modelled from the spec: the class [Point] of
    [nvm_import/nvm_file_handler.py], with the attributes [coord] and [color]
    read by [add_points_as_mesh] and the view list of pairs (camera index,
    feature index). *)
Record Point : Type := mkPoint
  { coord : Vector3;
    color : Z * Z * Z;
    view_list : list (Z * Z) }.

(** What [add_cameras] stores in the camera data block and object it creates
    for one camera ([bcamera.angle_x], [bcamera.angle_y],
    [camera_object.matrix_world]). *)
Record CameraObject : Type := mkCameraObject
  { angle_x : R;
    angle_y : R;
    matrix_world : Matrix4 }.

(** The part of the host scene the importer writes to: camera objects and
    point-cloud meshes (vertex lists), in creation order. *)
Record Scene : Type := mkScene
  { scene_cameras : list CameraObject;
    scene_meshes : list (list Vector3) }.

(** Python's [x / y] on floats: a zero divisor raises. *)
Definition float_div (x y : R) : result R :=
  if Req_dec_T y 0 then Raise ZeroDivisionError else Ok (x / y).

(** Lines 152-164 of [add_cameras]: the assertion on the image size, the focal
    length read from the calibration matrix, and the two opening angles. *)
Definition field_of_view (camera : Camera) : result (R * R) :=
  match width camera, height camera with
  | Some w, Some h =>
      row0 <- getitem (calibration_mat camera) 0 ;;
      focal_length <- getitem row0 0 ;;
      qx <- float_div (IZR w) (focal_length * 2) ;;
      let angle_x := atan qx * 2 in
      qy <- float_div (IZR h) (focal_length * 2) ;;
      let angle_y := atan qy * 2 in
      Ok (angle_x, angle_y)
  | _, _ => Raise AssertionError
  end.

(** Lines 167-174 of [add_cameras]: the axis flip of rotation and translation
    and the world matrix that is assigned to [camera_object.matrix_world]. *)
Definition world_matrix (camera : Camera) : result Matrix4 :=
  let translation_vec := get_translation_vec camera in
  let rotation_mat := get_rotation_mat camera in
  rotation_mat <- invert_y_and_z_axis rotation_mat ;;
  translation_vec <- invert_y_and_z_axis translation_vec ;;
  get_world_matrix_from_translation_vec translation_vec rotation_mat.

(** The body of the loop of [add_cameras] for one camera (image planes are
    not added by default and are left out). *)
Definition add_camera (camera : Camera) : result CameraObject :=
  fov <- field_of_view camera ;;
  m <- world_matrix camera ;;
  Ok (mkCameraObject (fst fov) (snd fov) m).

(** [add_cameras(cameras)]: the objects created before an exception stay in
    the scene, the exception ends the loop. *)
Fixpoint add_cameras (cameras : list Camera) (scene : Scene) : Scene * result unit :=
  match cameras with
  | [] => (scene, Ok tt)
  | camera :: rest =>
      match add_camera camera with
      | Ok obj =>
          add_cameras rest
            (mkScene (scene_cameras scene ++ [obj]) (scene_meshes scene))
      | Raise e => (scene, Raise e)
      end
  end.

(** [add_points_as_mesh(points, ...)] without meshes at the vertex positions:
    one mesh whose vertices are the point coordinates. *)
Definition add_points_as_mesh (points : list Point) (scene : Scene) : Scene :=
  mkScene (scene_cameras scene) (scene_meshes scene ++ [map coord points]).

(** ** [import_nvm_op.py], store level

    [mathutils] vectors and matrices are mutable objects handled by
    reference.  Here the two geometric functions are written over an explicit
    store, with every [.copy()], constructor call and in-place update of the
    source made visible, so that what they do to the objects they are handed
    can be stated. *)

Module Heap.

Inductive object : Type :=
| OVector3 (v : Vector3)
| OVector4 (v : Vector4)
| OMatrix3 (m : Matrix3)
| OMatrix4 (m : Matrix4).

(** What a subscription yields and an item assignment takes: a float, or
    the floats of a matrix row ([mathutils] copies them into the row). *)
Inductive item : Type :=
| IFloat (x : R)
| IVector3 (v : Vector3)
| IVector4 (v : Vector4).

Definition ref : Type := nat.
Definition heap : Type := list object.

(** A computation on the store; an exception leaves the store as it is at
    the point of the raise. *)
Definition M (A : Type) : Type := heap -> result A * heap.

Definition ret {A : Type} (a : A) : M A := fun h => (Ok a, h).

Definition raise {A : Type} (e : exn) : M A := fun h => (Raise e, h).

Definition mbind {A B : Type} (m : M A) (k : A -> M B) : M B :=
  fun h =>
    match m h with
    | (Ok a, h') => k a h'
    | (Raise e, h') => (Raise e, h')
    end.

Definition lift {A : Type} (r : result A) : M A := fun h => (r, h).

Notation "x <~ m ;; k" := (mbind m (fun x => k))
  (at level 61, m at next level, right associativity).
Notation "m ;;; k" := (mbind m (fun _ => k))
  (at level 61, right associativity).

Fixpoint update (r : ref) (o : object) (h : heap) : heap :=
  match h, r with
  | [], _ => []
  | _ :: h', O => o :: h'
  | x :: h', S r' => x :: update r' o h'
  end.

(** A new object gets the next free reference. *)
Definition alloc (o : object) : M ref := fun h => (Ok (length h), h ++ [o]).

(** References come from [alloc] only; one outside the store is reported as
    a [TypeError]. *)
Definition load (r : ref) : M object :=
  fun h =>
    match nth_error h r with
    | Some o => (Ok o, h)
    | None => (Raise TypeError, h)
    end.

Definition store (r : ref) (o : object) : M unit :=
  fun h =>
    match nth_error h r with
    | Some _ => (Ok tt, update r o h)
    | None => (Raise TypeError, h)
    end.

(** [x.copy()] *)
Definition copy (r : ref) : M ref :=
  o <~ load r ;; alloc o.

(** [x[i]] *)
Definition obj_getitem (r : ref) (i : nat) : M item :=
  o <~ load r ;;
  lift match o with
       | OVector3 v => x <- getitem v i ;; Ok (IFloat x)
       | OVector4 v => x <- getitem v i ;; Ok (IFloat x)
       | OMatrix3 m => x <- getitem m i ;; Ok (IVector3 x)
       | OMatrix4 m => x <- getitem m i ;; Ok (IVector4 x)
       end.

(** [x[i] = e] *)
Definition obj_setitem (r : ref) (i : nat) (e : item) : M unit :=
  o <~ load r ;;
  o' <~ lift match o, e with
             | OVector3 v, IFloat x => v' <- setitem v i x ;; Ok (OVector3 v')
             | OVector4 v, IFloat x => v' <- setitem v i x ;; Ok (OVector4 v')
             | OMatrix3 m, IVector3 x => m' <- setitem m i x ;; Ok (OMatrix3 m')
             | OMatrix4 m, IVector4 x => m' <- setitem m i x ;; Ok (OMatrix4 m')
             | _, _ => Raise TypeError
             end ;;
  store r o'.

(** [-e] on an item. *)
Definition item_neg (e : item) : item :=
  match e with
  | IFloat x => IFloat (neg x)
  | IVector3 v => IVector3 (neg v)
  | IVector4 v => IVector4 (neg v)
  end.

(** [Vector(v)]: a new vector with the floats of [v]. *)
Definition Vector_new (r : ref) : M ref :=
  o <~ load r ;;
  match o with
  | OVector3 _ | OVector4 _ => alloc o
  | _ => raise TypeError
  end.

(** [v.to_4d()]: a new 4D vector. *)
Definition Vector_to_4d (r : ref) : M ref :=
  o <~ load r ;;
  match o with
  | OVector3 v => alloc (OVector4 (to_4d v))
  | OVector4 v => alloc (OVector4 v)
  | _ => raise TypeError
  end.

(** [m[row][0:3] = e]: writes through the row into the matrix [m]. *)
Definition row_setslice_0_3 (m : ref) (row : nat) (e : item) : M unit :=
  o <~ load m ;;
  match o, e with
  | OMatrix4 a, IVector3 v =>
      dst <~ lift (getitem a row) ;;
      a' <~ lift (setitem a row (set_slice_0_3 dst v)) ;;
      store m (OMatrix4 a')
  | _, _ => raise TypeError
  end.

(** [m.transpose()], in place. *)
Definition Matrix_transpose (m : ref) : M unit :=
  o <~ load m ;;
  match o with
  | OMatrix3 a => store m (OMatrix3 (transpose3 a))
  | OMatrix4 a => store m (OMatrix4 (transpose4 a))
  | _ => raise TypeError
  end.

(** [m * v]: a new vector. *)
Definition mul (m v : ref) : M ref :=
  a <~ load m ;;
  b <~ load v ;;
  match a, b with
  | OMatrix4 a, OVector4 b => alloc (OVector4 (mul_m4_v4 a b))
  | OMatrix3 a, OVector3 b => alloc (OVector3 (mul_m3_v3 a b))
  | _, _ => raise TypeError
  end.

(** [-v]: a new vector. *)
Definition Vector_neg (v : ref) : M ref :=
  a <~ load v ;;
  match a with
  | OVector3 a => alloc (OVector3 (neg a))
  | OVector4 a => alloc (OVector4 (neg a))
  | _ => raise TypeError
  end.

(** [m.col[3] = v], in place on [m]. *)
Definition col3_assign (m v : ref) : M unit :=
  a <~ load m ;;
  b <~ load v ;;
  match a, b with
  | OMatrix4 a, OVector4 b => store m (OMatrix4 (set_col3 a b))
  | _, _ => raise TypeError
  end.

Fixpoint for_range (rows : list nat) (body : nat -> M unit) : M unit :=
  match rows with
  | [] => ret tt
  | row :: rest => body row ;;; for_range rest body
  end.

Definition get_world_matrix_from_translation_vec
    (translation_vec rotation : ref) : M ref :=
  t <~ Vector_new translation_vec ;;
  t <~ Vector_to_4d t ;;
  camera_rotation <~ alloc (OMatrix4 Matrix_new) ;;
  for_range (seq 0 3)
    (fun row =>
       src <~ obj_getitem rotation row ;;
       row_setslice_0_3 camera_rotation row src) ;;;
  Matrix_transpose camera_rotation ;;;
  p <~ mul camera_rotation t ;;
  camera_center <~ Vector_neg p ;;
  obj_setitem camera_center 3 (IFloat 1) ;;;
  camera_rotation <~ copy camera_rotation ;;
  col3_assign camera_rotation camera_center ;;;
  ret camera_rotation.

Definition invert_y_and_z_axis (input_matrix_or_vector : ref) : M ref :=
  output_matrix_or_vector <~ copy input_matrix_or_vector ;;
  e1 <~ obj_getitem output_matrix_or_vector 1 ;;
  obj_setitem output_matrix_or_vector 1 (item_neg e1) ;;;
  e2 <~ obj_getitem output_matrix_or_vector 2 ;;
  obj_setitem output_matrix_or_vector 2 (item_neg e2) ;;;
  ret output_matrix_or_vector.

(** Every object of [h] is still there, with the same value, in [h']. *)
Definition unchanged (h h' : heap) : Prop :=
  forall (r : ref) (o : object), nth_error h r = Some o -> nth_error h' r = Some o.

(** A returned reference is new: it did not exist in [h]. *)
Definition fresh_in {A : Type} (h : heap) (res : result ref * A) : Prop :=
  match fst res with
  | Ok r => nth_error h r = None
  | Raise _ => True
  end.

End Heap.

(** ** The NVM parser and the import of one file *)

Module NVMFileHandler.

Import Ascii String.
Local Open Scope string_scope.
Local Open Scope list_scope.

(** *** Tokens *)

Definition is_newline (c : Ascii.ascii) : bool := Ascii.eqb c "010"%char.

Definition is_blank (c : Ascii.ascii) : bool :=
  Ascii.eqb c " "%char || Ascii.eqb c "009"%char || Ascii.eqb c "013"%char.

(** The pieces of [s] between the separators. *)
Fixpoint fields (sep : Ascii.ascii -> bool) (s : string) : list string :=
  match s with
  | EmptyString => [EmptyString]
  | String c s' =>
      if sep c then EmptyString :: fields sep s'
      else match fields sep s' with
           | [] => [String c EmptyString]
           | w :: ws => String c w :: ws
           end
  end.

Definition nonempty (s : string) : bool :=
  match s with
  | EmptyString => false
  | String _ _ => true
  end.

Definition tokens (line : string) : list string :=
  filter nonempty (fields is_blank line).

(** The lines of a file as token lists; lines without a token are dropped. *)
Definition tokenize (content : string) : list (list string) :=
  filter (fun l => negb (Nat.eqb (List.length l) 0))
         (map tokens (fields is_newline content)).

(** The header token: the first token of the file, if there is one. *)
Definition header_token (content : string) : option string :=
  match tokenize content with
  | (tok :: _) :: _ => Some tok
  | _ => None
  end.

Section Parser.

(** Reading one numeric token (double precision float, signed 64-bit
    integer); [None] for a token that is not a number of that kind. *)
Variable read_float : string -> option R.
Variable read_int : string -> option Z.

(** The constructor of the class [Camera] of [nvm_file_handler.py]: from
    file name, focal length, rotation matrix, camera centre, radial
    distortion and the reserved field.  How the class derives its
    calibration matrix and translation vector is not in the sources at
    hand. *)
Variable make_camera :
  string -> R -> Matrix3 -> Vector3 -> R -> Z -> Camera.

Definition float_token (tok : string) : result R :=
  match read_float tok with
  | Some x => Ok x
  | None => Raise FormatError
  end.

Definition int_token (tok : string) : result Z :=
  match read_int tok with
  | Some n => Ok n
  | None => Raise FormatError
  end.

(** Modelled from the spec: step 4 of the parser of
    [nvm_file_handler.py], the rotation matrix of the normalised
    quaternion [(w, x, y, z)]; a quaternion of norm zero is a
    [FormatError]. *)
Definition quaternion_to_rotation_mat (w x y z : R) : result Matrix3 :=
  let n := (w * w + x * x + y * y + z * z)%R in
  if Req_dec_T n 0 then Raise FormatError
  else
    let s := (2 / n)%R in
    Ok (mkMatrix3
          (mkVector3 (1 - s * (y * y + z * z)) (s * (x * y - w * z)) (s * (x * z + w * y)))
          (mkVector3 (s * (x * y + w * z)) (1 - s * (x * x + z * z)) (s * (y * z - w * x)))
          (mkVector3 (s * (x * z - w * y)) (s * (y * z + w * x)) (1 - s * (x * x + y * y)))).

(** Modelled from the spec: step 3 of the parser of
    [nvm_file_handler.py], one camera record: file name, focal length,
    quaternion (4), camera centre (3), distortion, reserved value; any
    other token count is a [FormatError]. *)
Definition parse_camera (record : list string) : result Camera :=
  match record with
  | [name; f; qw; qx; qy; qz; cx; cy; cz; k; r] =>
      f <- float_token f ;;
      qw <- float_token qw ;;
      qx <- float_token qx ;;
      qy <- float_token qy ;;
      qz <- float_token qz ;;
      cx <- float_token cx ;;
      cy <- float_token cy ;;
      cz <- float_token cz ;;
      k <- float_token k ;;
      r <- int_token r ;;
      rot <- quaternion_to_rotation_mat qw qx qy qz ;;
      Ok (make_camera name f rot (mkVector3 cx cy cz) k r)
  | _ => Raise FormatError
  end.

(** Reads [n] records with [parse_record] and returns them with the lines
    that follow; a missing record is a [FormatError]. *)
Fixpoint parse_records {A : Type} (parse_record : list string -> result A)
    (n : nat) (lines : list (list string)) : result (list A * list (list string)) :=
  match n with
  | O => Ok ([], lines)
  | S n' =>
      match lines with
      | [] => Raise FormatError
      | record :: rest =>
          a <- parse_record record ;;
          more <- parse_records parse_record n' rest ;;
          Ok (a :: fst more, snd more)
      end
  end.

(** The [(camera_idx feature_idx)] pairs of a point record: exactly
    [count] pairs must be there. *)
Fixpoint parse_views (count : nat) (toks : list string) : result (list (Z * Z)) :=
  match count, toks with
  | O, [] => Ok []
  | S count', c :: f :: rest =>
      c <- int_token c ;;
      f <- int_token f ;;
      views <- parse_views count' rest ;;
      Ok ((c, f) :: views)
  | _, _ => Raise FormatError
  end.

(** Modelled from the spec: step 5 of the parser of
    [nvm_file_handler.py], one point record
    [x y z r g b viewCount (camera_idx feature_idx)*viewCount]. *)
Definition parse_point (record : list string) : result Point :=
  match record with
  | x :: y :: z :: r :: g :: b :: count :: views =>
      x <- float_token x ;;
      y <- float_token y ;;
      z <- float_token z ;;
      r <- int_token r ;;
      g <- int_token g ;;
      b <- int_token b ;;
      count <- int_token count ;;
      views <- parse_views (Z.to_nat count) views ;;
      Ok (mkPoint (mkVector3 x y z) (r, g, b) views)
  | _ => Raise FormatError
  end.

Definition parse_count (lines : list (list string)) : result (nat * list (list string)) :=
  match lines with
  | [tok] :: rest => n <- int_token tok ;; Ok (Z.to_nat n, rest)
  | _ => Raise FormatError
  end.

(** Modelled from the spec: [NVMFileHandler.parse_nvm_file] of
    [nvm_file_handler.py], on the content of the file (steps 1 to 6 of
    the parser): the header line must start with the token [NVM_V3], then
    come the camera count and the camera records, the point count and the
    point records of the first model; what follows is ignored.  The
    result is either both lists or an exception, never a part of them.
    What step 2 (an annotation such as [FixedK] after the signature)
    changes in a camera record is not specified; the annotation is
    accepted and the records are read in the layout of step 3. *)
Definition parse_nvm_file (content : string) : result (list Camera * list Point) :=
  match tokenize content with
  | (signature :: _) :: body =>
      if String.eqb signature "NVM_V3" then
        n <- parse_count body ;;
        cams <- parse_records parse_camera (fst n) (snd n) ;;
        m <- parse_count (snd cams) ;;
        pts <- parse_records parse_point (fst m) (snd m) ;;
        Ok (fst cams, fst pts)
      else Raise FormatError
  | _ => Raise FormatError
  end.

(** The file system as the import sees it: the content of a text file
    and the pixel size of an image file ([None]: no such file),
    [os.path.dirname] and [os.path.join]. *)
Variable read_file : string -> option string.
Variable image_size : string -> option (Z * Z).
Variable dirname : string -> string.
Variable join : string -> string -> string.

(** Modelled from the spec: [NVMFileHandler.parse_camera_image_files] of
    [nvm_file_handler.py]: a camera without width or height gets the
    size of its image file, or the defaults when the file does not
    exist; order is kept.  The warning is not represented. *)
Definition resolve_camera (path_to_images : string) (default_width default_height : Z)
    (camera : Camera) : Camera :=
  match width camera, height camera with
  | Some _, Some _ => camera
  | _, _ =>
      let (w, h) :=
        match image_size (join path_to_images (file_name camera)) with
        | Some wh => wh
        | None => (default_width, default_height)
        end in
      mkCamera (file_name camera) (Some w) (Some h) (calibration_mat camera)
               (get_translation_vec camera) (get_rotation_mat camera)
  end.

Definition parse_camera_image_files (cameras : list Camera) (path_to_images : string)
    (default_width default_height : Z) : list Camera :=
  map (resolve_camera path_to_images default_width default_height) cameras.

(** The properties of the operator [ImportNVM] that [execute] reads. *)
Record ImportNVM : Type := mkImportNVM
  { import_cameras : bool;
    default_width : Z;
    default_height : Z;
    import_points : bool }.

(** The body of the loop of [ImportNVM.execute] for one path. *)
Definition import_path (self : ImportNVM) (path : string) (scene : Scene)
    : Scene * result unit :=
  let path_to_images := dirname path in
  match read_file path with
  | None => (scene, Raise IOError)
  | Some content =>
      match parse_nvm_file content with
      | Raise e => (scene, Raise e)
      | Ok (cameras, points) =>
          let cameras :=
            parse_camera_image_files cameras path_to_images
              (default_width self) (default_height self) in
          let scene :=
            if import_points self then add_points_as_mesh points scene else scene in
          if import_cameras self then add_cameras cameras scene
          else (scene, Ok tt)
      end
  end.

(** [ImportNVM.execute]: the paths in turn; an exception ends the loop. *)
Fixpoint execute (self : ImportNVM) (paths : list string) (scene : Scene)
    : Scene * result unit :=
  match paths with
  | [] => (scene, Ok tt)
  | path :: rest =>
      match import_path self path scene with
      | (scene', Ok _) => execute self rest scene'
      | (scene', Raise e) => (scene', Raise e)
      end
  end.

End Parser.

End NVMFileHandler.

(** * Properties *)

(** ** Notions used in the statements *)

Definition diag3 (a b c : R) : Matrix3 :=
  mkMatrix3 (mkVector3 a 0 0) (mkVector3 0 b 0) (mkVector3 0 0 c).

(** The rotation by [angle] about axis 0 (the x axis). *)
Definition rotation_about_x (angle : R) : Matrix3 :=
  mkMatrix3 (mkVector3 1 0 0)
            (mkVector3 0 (cos angle) (- sin angle))
            (mkVector3 0 (sin angle) (cos angle)).

Definition identity4 : Matrix4 := Matrix_new.

Definition diag4 (a b c d : R) : Matrix4 :=
  mkMatrix4 (mkVector4 a 0 0 0) (mkVector4 0 b 0 0)
            (mkVector4 0 0 c 0) (mkVector4 0 0 0 d).

Definition orthonormal (m : Matrix3) : Prop :=
  mul_m3 m (transpose3 m) = identity3.

(** The focal length [add_cameras] uses: [camera.calibration_mat[0][0]]. *)
Definition focal_length_of (camera : Camera) : R :=
  v3x (m3r0 (calibration_mat camera)).

(** The camera of the example record [img.jpg 1000.0 1 0 0 0 0 0 0 0.0 0]:
    focal length 1000, identity rotation, position (0,0,0). *)
Definition example_camera : Camera :=
  mkCamera "img.jpg"%string None None (diag3 1000 1000 1) (mkVector3 0 0 0) identity3.

(** A camera with identity rotation whose position vector is (1,2,3), with a
    1920x1080 image and focal length 1000. *)
Definition camera_1_2_3 : Camera :=
  mkCamera "a.jpg"%string (Some 1920%Z) (Some 1080%Z) (diag3 1000 1000 1)
           (mkVector3 1 2 3) identity3.

(** A camera turned by a quarter turn about the z axis, at (1,2,3). *)
Definition camera_quarter_turn : Camera :=
  mkCamera "q.jpg"%string (Some 1920%Z) (Some 1080%Z) (diag3 1000 1000 1)
           (mkVector3 1 2 3)
           (mkMatrix3 (mkVector3 0 (-1) 0) (mkVector3 1 0 0) (mkVector3 0 0 1)).

(** A camera with a negative focal length and a resolved image size. *)
Definition camera_negative_focal : Camera :=
  mkCamera "b.jpg"%string (Some 1920%Z) (Some 1080%Z) (diag3 (-1000) (-1000) 1)
           (mkVector3 0 0 0) identity3.

(** The world matrix composed as: upper-left block the transposed flipped
    rotation, translation column the flipped position vector itself, bottom
    row (0,0,0,1). *)
Definition world_matrix_as_stated (camera : Camera) : Prop :=
  exists (w : Matrix4) (rf : Matrix3) (tf : Vector3),
    world_matrix camera = Ok w /\
    invert_y_and_z_axis (get_rotation_mat camera) = Ok rf /\
    invert_y_and_z_axis (get_translation_vec camera) = Ok tf /\
    upper_left_3x3 w = transpose3 rf /\
    translation_column w = tf /\
    bottom_row w = mkVector4 0 0 0 1.

(** The field of view has no ordinary value when the focal length is not
    positive or the image size is unset. *)
Definition field_of_view_guarded (camera : Camera) : Prop :=
  focal_length_of camera <= 0 \/ width camera = None \/ height camera = None ->
  exists e : exn, field_of_view camera = Raise e.

(** Two cameras whose images have a negative width (as a negative
    [default_width] of the operator gives when the image file is missing),
    with focal lengths 1000 and 2000. *)
Definition camera_negative_width_f1000 : Camera :=
  mkCamera "d.jpg"%string (Some (-1920)%Z) (Some 1080%Z) (diag3 1000 1000 1)
           (mkVector3 0 0 0) identity3.

Definition camera_negative_width_f2000 : Camera :=
  mkCamera "d.jpg"%string (Some (-1920)%Z) (Some 1080%Z) (diag3 2000 2000 1)
           (mkVector3 0 0 0) identity3.

(** A camera with a 1920x1080 image and focal length 2000. *)
Definition camera_f2000 : Camera :=
  mkCamera "a.jpg"%string (Some 1920%Z) (Some 1080%Z) (diag3 2000 2000 1)
           (mkVector3 1 2 3) identity3.

(** For whatever fixed width and height, a larger positive focal length
    never gives larger angles. *)
Definition field_of_view_decreasing_in_focal_length : Prop :=
  forall (c1 c2 : Camera) (w h : Z),
    width c1 = Some w -> width c2 = Some w ->
    height c1 = Some h -> height c2 = Some h ->
    0 < focal_length_of c1 -> focal_length_of c1 <= focal_length_of c2 ->
    exists ax1 ay1 ax2 ay2 : R,
      field_of_view c1 = Ok (ax1, ay1) /\
      field_of_view c2 = Ok (ax2, ay2) /\
      ax2 <= ax1 /\ ay2 <= ay1.

(** [keeps n m post]: run on a store with at least [n] objects, [m] leaves
    the first [n] objects as they are, whether it returns or raises, and a
    returned value satisfies [post]. *)
Definition keeps {A : Type} (n : nat) (m : Heap.M A) (post : A -> Prop) : Prop :=
  forall h : Heap.heap,
    (n <= length h)%nat ->
    firstn n (snd (m h)) = firstn n h /\
    (n <= length (snd (m h)))%nat /\
    match fst (m h) with
    | Ok a => post a
    | Raise _ => True
    end.

(** The steps of [add_cameras] and [add_camera_image_plane] that share the
    flipped rotation and translation: both are flipped once and the world
    matrix is computed twice from the same two objects. *)
Definition flip_then_two_world_matrices (rotation translation_vec : Heap.ref)
    : Heap.M (Heap.ref * Heap.ref * Heap.ref * Heap.ref) :=
  Heap.mbind (Heap.invert_y_and_z_axis rotation) (fun rotation_mat =>
  Heap.mbind (Heap.invert_y_and_z_axis translation_vec) (fun translation_vec =>
  Heap.mbind (Heap.get_world_matrix_from_translation_vec translation_vec rotation_mat)
    (fun camera_world =>
  Heap.mbind (Heap.get_world_matrix_from_translation_vec translation_vec rotation_mat)
    (fun plane_world =>
  Heap.ret (rotation_mat, translation_vec, camera_world, plane_world))))).

(** The example file: header [NVM_V3], one camera record, no point. *)
Definition example_file : String.string :=
  String.concat (String.String (Ascii.ascii_of_nat 10) String.EmptyString)
    ["NVM_V3"%string; "1"%string;
     "img.jpg 1000.0 1 0 0 0 0 0 0 0.0 0"%string; "0"%string].

(** Token readers that know the numerals of the example file. *)
Definition example_read_float (tok : String.string) : option R :=
  if String.eqb tok "1000.0" then Some 1000
  else if String.eqb tok "1" then Some 1
  else if String.eqb tok "0" then Some 0
  else if String.eqb tok "0.0" then Some 0
  else None.

Definition example_read_int (tok : String.string) : option Z :=
  if String.eqb tok "1" then Some 1%Z
  else if String.eqb tok "0" then Some 0%Z
  else None.

(** A camera constructor for the examples: calibration matrix diag(f,f,1),
    size unset, the parsed vector and rotation stored as they are. *)
Definition example_make_camera (name : String.string) (f : R) (rot : Matrix3)
    (c : Vector3) (k : R) (r : Z) : Camera :=
  mkCamera name None None (diag3 f f 1) c rot.

(** ** The rest of [import_nvm_op.py] *)

(** [Matrix * Matrix] for 4x4 matrices. *)
Definition mul_m4 (a b : Matrix4) : Matrix4 :=
  let bt := transpose4 b in
  mkMatrix4
    (mkVector4 (dot4 (m4r0 a) (m4r0 bt)) (dot4 (m4r0 a) (m4r1 bt))
               (dot4 (m4r0 a) (m4r2 bt)) (dot4 (m4r0 a) (m4r3 bt)))
    (mkVector4 (dot4 (m4r1 a) (m4r0 bt)) (dot4 (m4r1 a) (m4r1 bt))
               (dot4 (m4r1 a) (m4r2 bt)) (dot4 (m4r1 a) (m4r3 bt)))
    (mkVector4 (dot4 (m4r2 a) (m4r0 bt)) (dot4 (m4r2 a) (m4r1 bt))
               (dot4 (m4r2 a) (m4r2 bt)) (dot4 (m4r2 a) (m4r3 bt)))
    (mkVector4 (dot4 (m4r3 a) (m4r0 bt)) (dot4 (m4r3 a) (m4r1 bt))
               (dot4 (m4r3 a) (m4r2 bt)) (dot4 (m4r3 a) (m4r3 bt))).

(** The homogeneous matrix of the world-to-camera map [x |-> r * x + t]:
    rotation [r] and translation vector [t], bottom row (0,0,0,1). *)
Definition extrinsic_matrix (r : Matrix3) (t : Vector3) : Matrix4 :=
  mkMatrix4
    (mkVector4 (v3x (m3r0 r)) (v3y (m3r0 r)) (v3z (m3r0 r)) (v3x t))
    (mkVector4 (v3x (m3r1 r)) (v3y (m3r1 r)) (v3z (m3r1 r)) (v3y t))
    (mkVector4 (v3x (m3r2 r)) (v3y (m3r2 r)) (v3z (m3r2 r)) (v3z t))
    (mkVector4 0 0 0 1).

(** [Vector * float], [float * Vector] and [Vector + Vector]. *)
Definition vec_mul (v : Vector3) (k : R) : Vector3 :=
  mkVector3 (v3x v * k) (v3y v * k) (v3z v * k).

Definition vec_rmul (k : R) (v : Vector3) : Vector3 :=
  mkVector3 (k * v3x v) (k * v3y v) (k * v3z v).

Definition vec_add (u v : Vector3) : Vector3 :=
  mkVector3 (v3x u + v3x v) (v3y u + v3y v) (v3z u + v3z v).

(** What [add_camera_image_plane] builds: the mesh (vertices and the one
    face) and the world matrix of the mesh object.  Image, texture and
    material are left out. *)
Record ImagePlane : Type := mkImagePlane
  { plane_vertices : list Vector3;
    plane_faces : list (list nat);
    plane_matrix_world : Matrix4 }.

(** [add_camera_image_plane(rotation_mat, translation_vec, bimage, width,
    height, focal_length, name)] *)
Definition add_camera_image_plane (rotation_mat : Matrix3) (translation_vec : Vector3)
    (width height : Z) (focal_length : R) : result ImagePlane :=
  let plane_distance := 1 in
  q <- float_div (IZR width) focal_length ;;
  let right := vec_mul (vec_mul (mkVector3 1 0 0) q) plane_distance in
  q <- float_div (IZR height) focal_length ;;
  let up := vec_mul (vec_mul (mkVector3 0 1 0) q) plane_distance in
  let view_dir := vec_mul (neg (mkVector3 0 0 1)) plane_distance in
  let plane_center := view_dir in
  let corners := [(-0.5, -0.5); (0.5, -0.5); (0.5, 0.5); (-0.5, 0.5)] in
  let points :=
    map (fun c : R * R =>
           vec_add (vec_add plane_center (vec_rmul (fst c) right)) (vec_rmul (snd c) up))
        corners in
  world_matrix <- get_world_matrix_from_translation_vec translation_vec rotation_mat ;;
  Ok (mkImagePlane points [[0; 1; 2; 3]%nat] world_matrix).

Section AddCamerasWithImagePlanes.

(** [os.path.isfile] and [os.path.join]. *)
Variable isfile : String.string -> bool.
Variable join : String.string -> String.string -> String.string.

(** The whole body of the loop of [add_cameras] for one camera (lines 149 to
    199), with [add_image_planes] and a [path_to_images] that is a path, as
    [execute] passes it: the camera object and, when asked for and the image
    file exists, its image plane. *)
Definition add_camera_and_image_plane (path_to_images : String.string)
    (add_image_planes : bool) (camera : Camera)
    : result (CameraObject * option ImagePlane) :=
  match width camera, height camera with
  | Some w, Some h =>
      row0 <- getitem (calibration_mat camera) 0 ;;
      focal_length <- getitem row0 0 ;;
      q <- float_div (IZR w) (focal_length * 2) ;;
      let bcamera_angle_x := atan q * 2 in
      q <- float_div (IZR h) (focal_length * 2) ;;
      let bcamera_angle_y := atan q * 2 in
      let translation_vec := get_translation_vec camera in
      let rotation_mat := get_rotation_mat camera in
      rotation_mat <- invert_y_and_z_axis rotation_mat ;;
      translation_vec <- invert_y_and_z_axis translation_vec ;;
      camera_object_matrix_world <-
        get_world_matrix_from_translation_vec translation_vec rotation_mat ;;
      let camera_object :=
        mkCameraObject bcamera_angle_x bcamera_angle_y camera_object_matrix_world in
      if add_image_planes then
        let path_to_image := join path_to_images (file_name camera) in
        if isfile path_to_image then
          image_plane_obj <-
            add_camera_image_plane rotation_mat translation_vec w h focal_length ;;
          Ok (camera_object, Some image_plane_obj)
        else Ok (camera_object, None)
      else Ok (camera_object, None)
  | _, _ => Raise AssertionError
  end.

End AddCamerasWithImagePlanes.

(** The shapes [add_points_as_mesh] can put at the vertices. *)
Inductive Primitive : Type :=
| PrimitivePlane
| PrimitiveCube
| PrimitiveUVSphere.

(** One object of the representation of a point: the shape and its radius,
    the location and the diffuse colour of its material. *)
Record PointObject : Type := mkPointObject
  { primitive : Primitive;
    radius : R;
    location : Vector3;
    diffuse_color : R * R * R }.

(** The branch [add_meshes_at_vertex_positions] of [add_points_as_mesh]
    (lines 73 to 108): the shape is chosen by [mesh_type], and every point
    gets a copy of it at its coordinates with its colour divided by 255. *)
Definition add_meshes_at_vertex_positions (points : list Point)
    (mesh_type : String.string) (point_extent : R) : list PointObject :=
  let point_scale := point_extent * 0.5 in
  let viz_mesh :=
    if String.eqb mesh_type "PLANE" then PrimitivePlane
    else if String.eqb mesh_type "CUBE" then PrimitiveCube
    else if String.eqb mesh_type "SPHERE" then PrimitiveUVSphere
    else PrimitiveUVSphere in
  map (fun point =>
         let coord := coord point in
         let '(r, g, b) := color point in
         mkPointObject viz_mesh point_scale coord
           (IZR r / 255, IZR g / 255, IZR b / 255))
      points.

(** *** Objects, selection and the active object *)

Module Bpy.

(** The data block of an object: none (an empty), a camera with its opening
    angles, or a mesh with its vertices. *)
Inductive ObjectData : Type :=
| NoData
| CameraData (angle_x angle_y : R)
| MeshData (vertices : list Vector3).

(** An object of the scene as [add_obj] sees it: its data, a name, whether
    it is selected, and its mode (['OBJECT'], ['EDIT'], ...). *)
Record Object : Type := mkObject
  { data : ObjectData;
    name : String.string;
    select : bool;
    mode : String.string }.

(** [bpy.context.scene]: the linked objects in the order of linking, and the
    active object as an index into them ([None]: no active object). *)
Record Scene : Type := mkScene
  { objects : list Object;
    active : option nat }.

Definition deselect (obj : Object) : Object :=
  mkObject (data obj) (name obj) false (mode obj).

(** [objs[i].select = True] *)
Fixpoint set_selected (i : nat) (objs : list Object) : list Object :=
  match objs, i with
  | [], _ => []
  | obj :: rest, O => mkObject (data obj) (name obj) true (mode obj) :: rest
  | obj :: rest, S i' => obj :: set_selected i' rest
  end.

(** [add_obj(data, obj_name, deselect_others)]; a new object is linked after
    the others, unselected and in object mode.  Returns the scene and the
    index of the new object. *)
Definition add_obj (data : ObjectData) (obj_name : String.string)
    (deselect_others : bool) (scene : Scene) : Scene * nat :=
  let objs := if deselect_others then map deselect (objects scene) else objects scene in
  let new_obj := length objs in
  let objs := objs ++ [mkObject data obj_name false "OBJECT"%string] in
  let objs := set_selected new_obj objs in
  let active' :=
    match active scene with
    | None => Some new_obj
    | Some a =>
        match nth_error objs a with
        | Some obj => if String.eqb (mode obj) "OBJECT" then Some new_obj else Some a
        | None => Some a
        end
    end in
  (mkScene objs active', new_obj).

(** [add_empty(empty_name)]: links a new object, touches neither selection
    nor the active object. *)
Definition add_empty (empty_name : String.string) (scene : Scene) : Scene * nat :=
  (mkScene (objects scene ++ [mkObject NoData empty_name false "OBJECT"%string])
           (active scene),
   length (objects scene)).

End Bpy.


(** A file system for the examples: [bad.nvm] has the header [NVM_V2],
    every other path holds the example file. *)
Definition example_read_file (path : String.string) : option String.string :=
  if String.eqb path "bad.nvm" then Some "NVM_V2"%string else Some example_file.

(** The camera object of the example camera with the default size
    1920x1080. *)
Definition example_camera_object : CameraObject :=
  mkCameraObject (atan (1920 / (1000 * 2)) * 2) (atan (1080 / (1000 * 2)) * 2)
                 (diag4 1 (-1) (-1) 1).

(** A colour with components from 0 to 255, and a colour with components
    from 0 to 1 (what a diffuse colour must be). *)
Definition byte_colour (c : Z * Z * Z) : Prop :=
  let '(r, g, b) := c in
  (0 <= r <= 255)%Z /\ (0 <= g <= 255)%Z /\ (0 <= b <= 255)%Z.

Definition unit_colour (c : R * R * R) : Prop :=
  let '(r, g, b) := c in
  0 <= r <= 1 /\ 0 <= g <= 1 /\ 0 <= b <= 1.

(** Three points: two with byte colours, one with a colour out of range. *)
Definition example_points : list Point :=
  [mkPoint (mkVector3 0 0 0) (255, 0, 0)%Z [];
   mkPoint (mkVector3 1 2 3) (10, 20, 30)%Z [(0, 7)%Z];
   mkPoint (mkVector3 4 5 6) (300, 0, 0)%Z []].

(** A scene with a selected object in edit mode, which is the active one,
    and a selected object in object mode. *)
Definition example_bpy_scene : Bpy.Scene :=
  Bpy.mkScene
    [Bpy.mkObject (Bpy.MeshData []) "Cube"%string true "EDIT"%string;
     Bpy.mkObject Bpy.NoData "Lamp"%string true "OBJECT"%string]
    (Some 0%nat).

(** ** Computation lemmas *)

Lemma invert_y_and_z_axis_Matrix3 (m : Matrix3) :
  invert_y_and_z_axis m = Ok (mkMatrix3 (m3r0 m) (neg (m3r1 m)) (neg (m3r2 m))).
Proof. reflexivity. Qed.

Lemma invert_y_and_z_axis_Vector3 (v : Vector3) :
  invert_y_and_z_axis v = Ok (mkVector3 (v3x v) (- v3y v) (- v3z v)).
Proof. reflexivity. Qed.

Lemma Vector3_eq (a b c a' b' c' : R) :
  a = a' -> b = b' -> c = c' -> mkVector3 a b c = mkVector3 a' b' c'.
Proof. intros -> -> ->; reflexivity. Qed.

Lemma Vector4_eq (a b c d a' b' c' d' : R) :
  a = a' -> b = b' -> c = c' -> d = d' -> mkVector4 a b c d = mkVector4 a' b' c' d'.
Proof. intros -> -> -> ->; reflexivity. Qed.

Lemma Matrix3_eq (r0 r1 r2 r0' r1' r2' : Vector3) :
  r0 = r0' -> r1 = r1' -> r2 = r2' -> mkMatrix3 r0 r1 r2 = mkMatrix3 r0' r1' r2'.
Proof. intros -> -> ->; reflexivity. Qed.

Lemma Matrix4_eq (r0 r1 r2 r3 r0' r1' r2' r3' : Vector4) :
  r0 = r0' -> r1 = r1' -> r2 = r2' -> r3 = r3' ->
  mkMatrix4 r0 r1 r2 r3 = mkMatrix4 r0' r1' r2' r3'.
Proof. intros -> -> -> ->; reflexivity. Qed.

(** Entry-wise equality of vectors and matrices, closed by [ring]. *)
Ltac entrywise :=
  repeat first
    [ apply Matrix3_eq | apply Matrix4_eq | apply Vector3_eq | apply Vector4_eq ];
  simpl; unfold dot3, dot4, neg, Neg_float; simpl; try ring.

(** The world matrix in closed form: rows of the result are columns of the
    rotation, the fourth column is [- (rotation^T * translation_vec)]. *)
Lemma get_world_matrix_from_translation_vec_value (t : Vector3) (r : Matrix3) :
  get_world_matrix_from_translation_vec t r =
  Ok (let rt := transpose3 r in
      let c := neg (mul_m3_v3 rt t) in
      mkMatrix4
        (mkVector4 (v3x (m3r0 rt)) (v3y (m3r0 rt)) (v3z (m3r0 rt)) (v3x c))
        (mkVector4 (v3x (m3r1 rt)) (v3y (m3r1 rt)) (v3z (m3r1 rt)) (v3y c))
        (mkVector4 (v3x (m3r2 rt)) (v3y (m3r2 rt)) (v3z (m3r2 rt)) (v3z c))
        (mkVector4 0 0 0 1)).
Proof.
  destruct t as [tx ty tz], r as [[a b c] [d e f] [g h i]].
  unfold get_world_matrix_from_translation_vec; cbn.
  f_equal. entrywise.
Qed.

Lemma world_matrix_value (camera : Camera) :
  world_matrix camera =
  Ok (let r := get_rotation_mat camera in
      let t := get_translation_vec camera in
      let c := neg (mul_m3_v3 (transpose3 r) t) in
      mkMatrix4
        (mkVector4 (v3x (m3r0 r)) (- v3x (m3r1 r)) (- v3x (m3r2 r)) (v3x c))
        (mkVector4 (v3y (m3r0 r)) (- v3y (m3r1 r)) (- v3y (m3r2 r)) (v3y c))
        (mkVector4 (v3z (m3r0 r)) (- v3z (m3r1 r)) (- v3z (m3r2 r)) (v3z c))
        (mkVector4 0 0 0 1)).
Proof.
  unfold world_matrix.
  rewrite invert_y_and_z_axis_Matrix3, invert_y_and_z_axis_Vector3.
  cbn [bind].
  rewrite get_world_matrix_from_translation_vec_value.
  destruct (get_rotation_mat camera) as [[a b c] [d e f] [g h i]].
  destruct (get_translation_vec camera) as [tx ty tz].
  f_equal. entrywise.
Qed.

(** ** The axis flip *)

(** C3: on every 3x3 matrix and every 3-vector, [invert_y_and_z_axis] (which
    negates the items 1 and 2) is the product with diag(1,-1,-1) from the
    left, and diag(1,-1,-1) is the rotation by 180 degrees about axis 0. *)
Theorem invert_y_and_z_axis_is_rotation_by_pi (m : Matrix3) (v : Vector3) :
  invert_y_and_z_axis m = Ok (mul_m3 (diag3 1 (-1) (-1)) m) /\
  invert_y_and_z_axis v = Ok (mul_m3_v3 (diag3 1 (-1) (-1)) v) /\
  diag3 1 (-1) (-1) = rotation_about_x PI.
Proof.
  destruct m as [[a b c] [d e f] [g h i]], v as [x y z].
  repeat split.
  - rewrite invert_y_and_z_axis_Matrix3. f_equal. entrywise.
  - rewrite invert_y_and_z_axis_Vector3. f_equal. entrywise.
  - unfold diag3, rotation_about_x. rewrite cos_PI, sin_PI. entrywise.
Qed.

(** C9: [invert_y_and_z_axis] is an involution, on 3x3 matrices and on
    3-vectors: flipping the result of a flip gives the input back. *)
Theorem invert_y_and_z_axis_involutive (m : Matrix3) (v : Vector3) :
  (m' <- invert_y_and_z_axis m ;; invert_y_and_z_axis m') = Ok m /\
  (v' <- invert_y_and_z_axis v ;; invert_y_and_z_axis v') = Ok v.
Proof.
  destruct m as [[a b c] [d e f] [g h i]], v as [x y z].
  split; cbn; f_equal; entrywise.
Qed.

(** ** The world matrix *)

(** C1, as the code has it: for every camera the world matrix exists; its
    upper-left 3x3 block is the transpose of the axis-flipped rotation, its
    bottom row is (0,0,0,1), and its translation column is the negated
    product of that transposed flipped rotation with the flipped vector,
    which is [- (rotation^T * translation_vec)] of the unflipped values: the
    flip cancels, and the column is not the flipped vector itself. *)
Theorem world_matrix_composition (camera : Camera) :
  exists (w : Matrix4) (rf : Matrix3) (tf : Vector3),
    world_matrix camera = Ok w /\
    invert_y_and_z_axis (get_rotation_mat camera) = Ok rf /\
    invert_y_and_z_axis (get_translation_vec camera) = Ok tf /\
    upper_left_3x3 w = transpose3 rf /\
    translation_column w = neg (mul_m3_v3 (transpose3 rf) tf) /\
    translation_column w =
      neg (mul_m3_v3 (transpose3 (get_rotation_mat camera)) (get_translation_vec camera)) /\
    bottom_row w = mkVector4 0 0 0 1.
Proof.
  rewrite world_matrix_value, invert_y_and_z_axis_Matrix3, invert_y_and_z_axis_Vector3.
  do 3 eexists. split; [reflexivity|]. split; [reflexivity|]. split; [reflexivity|].
  destruct (get_rotation_mat camera) as [[a b c] [d e f] [g h i]].
  destruct (get_translation_vec camera) as [tx ty tz].
  repeat split; entrywise.
Qed.

(** C1, counterexample: for the camera with identity rotation and vector
    (1,2,3) the translation column is (-1,-2,-3), while the flipped vector is
    (1,-2,-3). *)
Lemma world_matrix_translation_not_flipped_position :
  ~ world_matrix_as_stated camera_1_2_3.
Proof.
  intros (w & rf & tf & Hw & _ & Htf & _ & Hcol & _).
  rewrite world_matrix_value in Hw.
  rewrite invert_y_and_z_axis_Vector3 in Htf.
  injection Hw as <-. injection Htf as <-.
  apply (f_equal v3x) in Hcol. cbn in Hcol.
  unfold dot3, neg, Neg_float in Hcol. cbn in Hcol. lra.
Qed.

(** C2, as the code has it: a camera with identity rotation at position
    (0,0,0) gets the world matrix diag(1,-1,-1,1), the rotation by 180
    degrees about the x axis without translation, and not the identity. *)
Theorem world_matrix_of_identity_camera (camera : Camera)
    (Hrot : get_rotation_mat camera = identity3)
    (Hpos : get_translation_vec camera = mkVector3 0 0 0) :
  world_matrix camera = Ok (diag4 1 (-1) (-1) 1).
Proof.
  rewrite world_matrix_value, Hrot, Hpos.
  f_equal. unfold diag4. entrywise.
Qed.

Lemma world_matrix_of_identity_camera_witness :
  world_matrix example_camera = Ok (diag4 1 (-1) (-1) 1).
Proof.
  apply (world_matrix_of_identity_camera example_camera); reflexivity.
Defined.

(** C2, counterexample: the world matrix of the example camera is not the
    4x4 identity. *)
Lemma world_matrix_of_example_camera_not_identity :
  world_matrix example_camera <> Ok identity4.
Proof.
  rewrite world_matrix_value. intros H.
  injection H as H. cbn in H. lra.
Qed.

Lemma orthonormal_columns (a b c d e f g h i : R) :
  a * a + b * b + c * c = 1 -> a * d + b * e + c * f = 0 -> a * g + b * h + c * i = 0 ->
  d * d + e * e + f * f = 1 -> d * g + e * h + f * i = 0 -> g * g + h * h + i * i = 1 ->
  a * (e * i - f * h) - b * (d * i - f * g) + c * (d * h - e * g) = 1 ->
  a * a + d * d + g * g = 1 /\ a * b + d * e + g * h = 0 /\ a * c + d * f + g * i = 0 /\
  b * b + e * e + h * h = 1 /\ b * c + e * f + h * i = 0 /\ c * c + f * f + i * i = 1.
Proof.
  intros. repeat split; nsatz.
Qed.

(** C4: for every camera whose rotation matrix is orthonormal with
    determinant 1, the world matrix exists and is a rigid transform: its
    upper-left 3x3 block [b] satisfies [b * b^T = 1] and [b^T * b = 1]
    (exactly, hence within every tolerance), has determinant 1, and the
    bottom row is (0,0,0,1). *)
Theorem world_matrix_rigid (camera : Camera)
    (Horth : orthonormal (get_rotation_mat camera))
    (Hdet : det3 (get_rotation_mat camera) = 1) :
  exists w : Matrix4,
    world_matrix camera = Ok w /\
    orthonormal (upper_left_3x3 w) /\
    mul_m3 (transpose3 (upper_left_3x3 w)) (upper_left_3x3 w) = identity3 /\
    det3 (upper_left_3x3 w) = 1 /\
    bottom_row w = mkVector4 0 0 0 1.
Proof.
  rewrite world_matrix_value. eexists. split; [reflexivity|].
  unfold orthonormal in *.
  destruct (get_rotation_mat camera) as [[a b c] [d e f] [g h i]].
  destruct (get_translation_vec camera) as [tx ty tz].
  cbn in Hdet.
  unfold mul_m3, identity3 in Horth. cbn in Horth. unfold dot3 in Horth. cbn in Horth.
  injection Horth as H00 H01 H02 H10 H11 H12 H20 H21 H22.
  destruct (orthonormal_columns a b c d e f g h i H00 H01 H02 H11 H12 H22 Hdet)
    as (C00 & C01 & C02 & C11 & C12 & C22).
  repeat split.
  - unfold identity3. entrywise; lra.
  - unfold identity3. entrywise; lra.
  - cbn. lra.
Qed.

Lemma world_matrix_rigid_witness :
  exists w : Matrix4,
    world_matrix camera_quarter_turn = Ok w /\
    orthonormal (upper_left_3x3 w) /\
    mul_m3 (transpose3 (upper_left_3x3 w)) (upper_left_3x3 w) = identity3 /\
    det3 (upper_left_3x3 w) = 1 /\
    bottom_row w = mkVector4 0 0 0 1.
Proof.
  apply (world_matrix_rigid camera_quarter_turn).
  - unfold orthonormal, identity3. entrywise.
  - cbn. ring.
Defined.

(** ** The field of view *)

Lemma float_div_nonzero (x y : R) : y <> 0 -> float_div x y = Ok (x / y).
Proof.
  intros Hy. unfold float_div. destruct (Req_dec_T y 0); [contradiction | reflexivity].
Qed.

Lemma float_div_zero (x : R) : float_div x 0 = Raise ZeroDivisionError.
Proof.
  unfold float_div. destruct (Req_dec_T 0 0); [reflexivity | contradiction].
Qed.

Lemma field_of_view_unset (camera : Camera) :
  width camera = None \/ height camera = None ->
  field_of_view camera = Raise AssertionError.
Proof.
  unfold field_of_view. intros [-> | ->]; [reflexivity|].
  destruct (width camera); reflexivity.
Qed.

Lemma field_of_view_value (camera : Camera) (w h : Z) :
  width camera = Some w -> height camera = Some h -> focal_length_of camera <> 0 ->
  field_of_view camera =
  Ok (atan (IZR w / (focal_length_of camera * 2)) * 2,
      atan (IZR h / (focal_length_of camera * 2)) * 2).
Proof.
  intros Hw Hh Hf. unfold field_of_view. rewrite Hw, Hh. cbn.
  fold (focal_length_of camera).
  rewrite !float_div_nonzero by lra. reflexivity.
Qed.

Lemma field_of_view_zero_focal (camera : Camera) (w h : Z) :
  width camera = Some w -> height camera = Some h -> focal_length_of camera = 0 ->
  field_of_view camera = Raise ZeroDivisionError.
Proof.
  intros Hw Hh Hf. unfold field_of_view. rewrite Hw, Hh. cbn.
  fold (focal_length_of camera). rewrite Hf, Rmult_0_l, float_div_zero. reflexivity.
Qed.

Lemma atan_le (x y : R) : x <= y -> atan x <= atan y.
Proof.
  intros [Hlt | ->]; [left; apply atan_increasing; exact Hlt | right; reflexivity].
Qed.

Lemma opening_angle_bounds (x : R) : - PI < atan x * 2 < PI.
Proof.
  pose proof (atan_bound x). lra.
Qed.

Lemma quotient_le_in_focal (w f1 f2 : R) :
  0 <= w -> 0 < f1 -> f1 <= f2 -> w / (f2 * 2) <= w / (f1 * 2).
Proof.
  intros Hw Hf1 Hf. unfold Rdiv.
  apply Rmult_le_compat_l; [exact Hw|].
  apply Rinv_le_contravar; lra.
Qed.

Lemma quotient_lt_in_focal (w f1 f2 : R) :
  0 < w -> 0 < f1 -> f1 < f2 -> w / (f2 * 2) < w / (f1 * 2).
Proof.
  intros Hw Hf1 Hf. unfold Rdiv.
  apply Rmult_lt_compat_l; [exact Hw|].
  apply Rinv_lt_contravar; [|lra].
  apply Rmult_lt_0_compat; lra.
Qed.

Lemma quotient_le_in_size (w1 w2 f : R) :
  0 < f -> w1 <= w2 -> w1 / (f * 2) <= w2 / (f * 2).
Proof.
  intros Hf Hw. unfold Rdiv. apply Rmult_le_compat_r; [|exact Hw].
  left. apply Rinv_0_lt_compat. lra.
Qed.

Lemma quotient_lt_in_size (w1 w2 f : R) :
  0 < f -> w1 < w2 -> w1 / (f * 2) < w2 / (f * 2).
Proof.
  intros Hf Hw. unfold Rdiv. apply Rmult_lt_compat_r; [|exact Hw].
  apply Rinv_0_lt_compat. lra.
Qed.

(** C5: for every camera with resolved width and height and positive focal
    length, the field of view is computed and
    [angle_x = 2 * atan (width / (2 * focal_length))],
    [angle_y = 2 * atan (height / (2 * focal_length))]. *)
Theorem field_of_view_formula (camera : Camera) (w h : Z)
    (Hw : width camera = Some w) (Hh : height camera = Some h)
    (Hf : 0 < focal_length_of camera) :
  field_of_view camera =
  Ok (2 * atan (IZR w / (2 * focal_length_of camera)),
      2 * atan (IZR h / (2 * focal_length_of camera))).
Proof.
  rewrite (field_of_view_value camera w h Hw Hh) by lra.
  rewrite (Rmult_comm (focal_length_of camera) 2).
  rewrite (Rmult_comm (atan (IZR w / _)) 2), (Rmult_comm (atan (IZR h / _)) 2).
  reflexivity.
Qed.

Lemma field_of_view_formula_witness :
  field_of_view camera_1_2_3 =
  Ok (2 * atan (IZR 1920 / (2 * focal_length_of camera_1_2_3)),
      2 * atan (IZR 1080 / (2 * focal_length_of camera_1_2_3))).
Proof.
  apply (field_of_view_formula camera_1_2_3 1920 1080).
  - reflexivity.
  - reflexivity.
  - cbn. lra.
Defined.

(** C6, as the code has it: the field of view raises when width or height is
    unset (the assertion) and when the focal length is 0 (division by zero);
    a negative focal length is not guarded and gives the ordinary values
    [2 * atan (width / (2 * focal_length))] and
    [2 * atan (height / (2 * focal_length))], angles strictly between -pi
    and pi. *)
Theorem field_of_view_failures (camera : Camera) :
  (width camera = None \/ height camera = None ->
   field_of_view camera = Raise AssertionError) /\
  (forall w h : Z,
     width camera = Some w -> height camera = Some h ->
     focal_length_of camera = 0 ->
     field_of_view camera = Raise ZeroDivisionError) /\
  (forall w h : Z,
     width camera = Some w -> height camera = Some h ->
     focal_length_of camera < 0 ->
     exists ax ay : R,
       field_of_view camera = Ok (ax, ay) /\
       ax = 2 * atan (IZR w / (2 * focal_length_of camera)) /\
       ay = 2 * atan (IZR h / (2 * focal_length_of camera)) /\
       - PI < ax < PI /\ - PI < ay < PI).
Proof.
  split; [apply field_of_view_unset|].
  split; [apply field_of_view_zero_focal|].
  intros w h Hw Hh Hf.
  rewrite (field_of_view_value camera w h Hw Hh) by lra.
  do 2 eexists. split; [reflexivity|].
  rewrite (Rmult_comm 2 (focal_length_of camera)).
  repeat split; try apply opening_angle_bounds; ring.
Qed.

Lemma field_of_view_failures_witness :
  field_of_view example_camera = Raise AssertionError /\
  field_of_view
    (mkCamera "c.jpg"%string (Some 1920%Z) (Some 1080%Z) (diag3 0 0 1)
              (mkVector3 0 0 0) identity3) = Raise ZeroDivisionError /\
  exists ax ay : R,
    field_of_view camera_negative_focal = Ok (ax, ay) /\
    ax = 2 * atan (IZR 1920 / (2 * focal_length_of camera_negative_focal)) /\
    ay = 2 * atan (IZR 1080 / (2 * focal_length_of camera_negative_focal)) /\
    - PI < ax < PI /\ - PI < ay < PI.
Proof.
  split; [|split].
  - apply (field_of_view_failures example_camera). left. reflexivity.
  - eapply (field_of_view_failures
              (mkCamera "c.jpg"%string (Some 1920%Z) (Some 1080%Z) (diag3 0 0 1)
                        (mkVector3 0 0 0) identity3)); reflexivity.
  - apply (field_of_view_failures camera_negative_focal); [reflexivity | reflexivity |].
    cbn. lra.
Defined.

(** C6, counterexample: the camera with a 1920x1080 image and focal length
    -1000 has a focal length that is not positive, and its field of view is
    computed without an exception. *)
Lemma field_of_view_negative_focal_not_guarded :
  ~ field_of_view_guarded camera_negative_focal.
Proof.
  intros H. destruct H as [e He].
  - left. cbn. lra.
  - rewrite (field_of_view_value camera_negative_focal 1920 1080) in He;
      [discriminate | reflexivity | reflexivity | cbn; lra].
Qed.

(** C7, as the code has it: for two cameras with resolved sizes and positive
    focal lengths both fields of view are computed, and
    - for equal non-negative widths (heights), the camera with the larger
      focal length has the smaller or equal [angle_x] ([angle_y]), strictly
      smaller for a positive size and a strictly larger focal length;
    - for equal focal lengths, the camera with the larger width (height) has
      the larger or equal [angle_x] ([angle_y]), strictly larger for a
      strictly larger size. *)
Theorem field_of_view_monotone (c1 c2 : Camera) (w1 h1 w2 h2 : Z)
    (Hw1 : width c1 = Some w1) (Hh1 : height c1 = Some h1)
    (Hw2 : width c2 = Some w2) (Hh2 : height c2 = Some h2)
    (Hf1 : 0 < focal_length_of c1) (Hf2 : 0 < focal_length_of c2) :
  exists ax1 ay1 ax2 ay2 : R,
    field_of_view c1 = Ok (ax1, ay1) /\
    field_of_view c2 = Ok (ax2, ay2) /\
    (w1 = w2 -> (0 <= w1)%Z -> focal_length_of c1 <= focal_length_of c2 -> ax2 <= ax1) /\
    (h1 = h2 -> (0 <= h1)%Z -> focal_length_of c1 <= focal_length_of c2 -> ay2 <= ay1) /\
    (w1 = w2 -> (0 < w1)%Z -> focal_length_of c1 < focal_length_of c2 -> ax2 < ax1) /\
    (h1 = h2 -> (0 < h1)%Z -> focal_length_of c1 < focal_length_of c2 -> ay2 < ay1) /\
    (focal_length_of c1 = focal_length_of c2 -> (w1 <= w2)%Z -> ax1 <= ax2) /\
    (focal_length_of c1 = focal_length_of c2 -> (h1 <= h2)%Z -> ay1 <= ay2) /\
    (focal_length_of c1 = focal_length_of c2 -> (w1 < w2)%Z -> ax1 < ax2) /\
    (focal_length_of c1 = focal_length_of c2 -> (h1 < h2)%Z -> ay1 < ay2).
Proof.
  rewrite (field_of_view_value c1 w1 h1 Hw1 Hh1) by lra.
  rewrite (field_of_view_value c2 w2 h2 Hw2 Hh2) by lra.
  do 4 eexists. split; [reflexivity|]. split; [reflexivity|].
  repeat split.
  - intros <- Hw Hf. apply IZR_le in Hw.
    apply Rmult_le_compat_r; [lra|]. apply atan_le, quotient_le_in_focal; assumption.
  - intros <- Hh Hf. apply IZR_le in Hh.
    apply Rmult_le_compat_r; [lra|]. apply atan_le, quotient_le_in_focal; assumption.
  - intros <- Hw Hf. apply IZR_lt in Hw.
    apply Rmult_lt_compat_r; [lra|]. apply atan_increasing, quotient_lt_in_focal; assumption.
  - intros <- Hh Hf. apply IZR_lt in Hh.
    apply Rmult_lt_compat_r; [lra|]. apply atan_increasing, quotient_lt_in_focal; assumption.
  - intros <- Hw. apply IZR_le in Hw.
    apply Rmult_le_compat_r; [lra|]. apply atan_le, quotient_le_in_size; assumption.
  - intros <- Hh. apply IZR_le in Hh.
    apply Rmult_le_compat_r; [lra|]. apply atan_le, quotient_le_in_size; assumption.
  - intros <- Hw. apply IZR_lt in Hw.
    apply Rmult_lt_compat_r; [lra|]. apply atan_increasing, quotient_lt_in_size; assumption.
  - intros <- Hh. apply IZR_lt in Hh.
    apply Rmult_lt_compat_r; [lra|]. apply atan_increasing, quotient_lt_in_size; assumption.
Qed.

Lemma field_of_view_monotone_witness :
  exists ax1 ay1 ax2 ay2 : R,
    field_of_view camera_1_2_3 = Ok (ax1, ay1) /\
    field_of_view camera_f2000 = Ok (ax2, ay2) /\
    ax2 < ax1 /\ ay2 < ay1.
Proof.
  destruct (field_of_view_monotone camera_1_2_3 camera_f2000 1920 1080 1920 1080)
    as (ax1 & ay1 & ax2 & ay2 & H1 & H2 & _ & _ & Hx & Hy & _);
    try reflexivity; try (cbn; lra).
  exists ax1, ay1, ax2, ay2.
  split; [exact H1|]. split; [exact H2|].
  split; [apply Hx | apply Hy]; try reflexivity; try (cbn; lra).
Defined.

(** C7, counterexample: with the width -1920 the angle [angle_x] grows when
    the focal length goes from 1000 to 2000. *)
Lemma field_of_view_not_decreasing_for_negative_width :
  ~ field_of_view_decreasing_in_focal_length.
Proof.
  intros H.
  destruct (H camera_negative_width_f1000 camera_negative_width_f2000 (-1920)%Z 1080%Z)
    as (ax1 & ay1 & ax2 & ay2 & H1 & H2 & Hx & _);
    try reflexivity; try (cbn; lra).
  rewrite (field_of_view_value _ (-1920) 1080) in H1;
    try reflexivity; try (cbn; lra).
  rewrite (field_of_view_value _ (-1920) 1080) in H2;
    try reflexivity; try (cbn; lra).
  injection H1 as <- _. injection H2 as <- _.
  cbn in Hx.
  assert (Hlt : atan (-1920 / (1000 * 2)) < atan (-1920 / (2000 * 2)))
    by (apply atan_increasing; lra).
  lra.
Qed.

(** ** The parser and the import of a file *)

Section ParserProperties.

Import NVMFileHandler.

Variable read_float : String.string -> option R.
Variable read_int : String.string -> option Z.
Variable make_camera :
  String.string -> R -> Matrix3 -> Vector3 -> R -> Z -> Camera.
Variable read_file : String.string -> option String.string.
Variable image_size : String.string -> option (Z * Z).
Variable dirname : String.string -> String.string.
Variable join : String.string -> String.string -> String.string.

Let parse := parse_nvm_file read_float read_int make_camera.
Let import :=
  import_path read_float read_int make_camera read_file image_size dirname join.
Let run := execute read_float read_int make_camera read_file image_size dirname join.

(** Whatever exception the parser raises ends the import of the file with
    the scene as it was: neither cameras nor points of the file are added. *)
Lemma import_path_aborts_on_parse_error
    (self : ImportNVM) (path content : String.string) (scene : Scene) (e : exn) :
  read_file path = Some content ->
  parse content = Raise e ->
  import self path scene = (scene, Raise e).
Proof.
  intros Hfile Hparse. unfold import, import_path.
  rewrite Hfile. fold parse. rewrite Hparse. reflexivity.
Qed.

Lemma parse_nvm_file_without_signature (content : String.string) :
  header_token content <> Some "NVM_V3"%string ->
  parse content = Raise FormatError.
Proof.
  unfold header_token, parse, parse_nvm_file. intros Hsig.
  destruct (tokenize content) as [|[|tok line] body]; try reflexivity.
  destruct (String.eqb_spec tok "NVM_V3"%string) as [-> | Hne]; [|reflexivity].
  contradiction Hsig. reflexivity.
Qed.

(** C8: for every file whose header token is not [NVM_V3] (or that has no
    token at all), the parser returns the exception [FormatError], which
    carries no camera or point list; the import of that file ends with
    this exception and the scene unchanged, and so does [execute] when it
    reaches the file.  The same holds for every exception of the parser, on
    any file: the import of the file ends with it and adds nothing to the
    scene. *)
Theorem parse_rejects_missing_signature
    (self : ImportNVM) (path content : String.string)
    (rest : list String.string) (scene : Scene)
    (Hfile : read_file path = Some content)
    (Hsig : header_token content <> Some "NVM_V3"%string) :
  parse content = Raise FormatError /\
  import self path scene = (scene, Raise FormatError) /\
  run self (path :: rest) scene = (scene, Raise FormatError) /\
  (forall (path' content' : String.string) (e : exn),
     read_file path' = Some content' ->
     parse content' = Raise e ->
     import self path' scene = (scene, Raise e)).
Proof.
  pose proof (parse_nvm_file_without_signature content Hsig) as Hparse.
  pose proof (import_path_aborts_on_parse_error self path content scene _ Hfile Hparse)
    as Himport.
  split; [exact Hparse|]. split; [exact Himport|]. split.
  - unfold run. cbn [execute]. fold import. rewrite Himport. reflexivity.
  - intros path' content' e. apply import_path_aborts_on_parse_error.
Qed.

End ParserProperties.

(** ** Effects on the store *)

Section Frame.

Import Heap.

Lemma firstn_update (n r : nat) (o : object) (h : heap) :
  (n <= r)%nat -> firstn n (update r o h) = firstn n h.
Proof.
  revert n r. induction h as [|x h IH]; intros n r Hle.
  - destruct r; reflexivity.
  - destruct r as [|r].
    + replace n with 0%nat by lia. reflexivity.
    + destruct n as [|n]; [reflexivity|].
      cbn. f_equal. apply IH. lia.
Qed.

Lemma length_update (r : nat) (o : object) (h : heap) :
  length (update r o h) = length h.
Proof.
  revert r. induction h as [|x h IH]; intros [|r]; cbn; try reflexivity.
  f_equal. apply IH.
Qed.

Context {n : nat}.

Lemma keeps_weaken {A : Type} (m : M A) (P Q : A -> Prop) :
  keeps n m P -> (forall a, P a -> Q a) -> keeps n m Q.
Proof.
  intros Hm HPQ h Hn. destruct (Hm h Hn) as (H1 & H2 & H3).
  repeat split; try assumption.
  destruct (fst (m h)); [apply HPQ; exact H3 | exact I].
Qed.

Lemma keeps_ret {A : Type} (a : A) (Q : A -> Prop) : Q a -> keeps n (ret a) Q.
Proof. intros Ha h Hn. cbn. auto. Qed.

Lemma keeps_raise {A : Type} (e : exn) (Q : A -> Prop) : keeps n (raise e) Q.
Proof. intros h Hn. cbn. auto. Qed.

Lemma keeps_lift {A : Type} (r : result A) : keeps n (lift r) (fun _ => True).
Proof. intros h Hn. cbn. repeat split; try assumption. destruct r; exact I. Qed.

Lemma keeps_bind {A B : Type} (m : M A) (k : A -> M B) (P : A -> Prop) (Q : B -> Prop) :
  keeps n m P -> (forall a, P a -> keeps n (k a) Q) -> keeps n (mbind m k) Q.
Proof.
  intros Hm Hk h Hn. destruct (Hm h Hn) as (H1 & H2 & H3).
  unfold mbind. destruct (m h) as [[a | e] h']; cbn in *.
  - destruct (Hk a H3 h' H2) as (K1 & K2 & K3).
    repeat split; try assumption. congruence.
  - auto.
Qed.

Lemma keeps_alloc (o : object) : keeps n (alloc o) (fun r => (n <= r)%nat).
Proof.
  intros h Hn. cbn. rewrite length_app. repeat split; try lia.
  rewrite firstn_app. replace (n - length h)%nat with 0%nat by lia.
  cbn. apply app_nil_r.
Qed.

Lemma keeps_load (r : ref) : keeps n (load r) (fun _ => True).
Proof.
  intros h Hn. unfold load. destruct (nth_error h r); cbn; auto.
Qed.

Lemma keeps_store (r : ref) (o : object) :
  (n <= r)%nat -> keeps n (store r o) (fun _ => True).
Proof.
  intros Hr h Hn. unfold store. destruct (nth_error h r); cbn; auto.
  rewrite length_update. repeat split; try assumption.
  apply firstn_update. exact Hr.
Qed.

Ltac keeps_auto :=
  repeat first
    [ progress intros
    | apply keeps_alloc
    | apply keeps_raise
    | apply keeps_lift
    | apply keeps_load
    | apply keeps_store; assumption
    | apply keeps_ret; first [exact I | assumption]
    | eapply keeps_bind; [first [apply keeps_load | apply keeps_lift] | ]
    | eapply keeps_weaken; [apply keeps_alloc | intros; exact I]
    | eapply keeps_weaken; [apply keeps_raise | intros; exact I]
    | match goal with
      | |- keeps _ (match ?o with _ => _ end) _ => destruct o
      end ].

Lemma keeps_copy (r : ref) : keeps n (copy r) (fun r' => (n <= r')%nat).
Proof. unfold copy. keeps_auto. Qed.

Lemma keeps_obj_getitem (r : ref) (i : nat) : keeps n (obj_getitem r i) (fun _ => True).
Proof. unfold obj_getitem. keeps_auto. Qed.

Lemma keeps_obj_setitem (r : ref) (i : nat) (e : item) :
  (n <= r)%nat -> keeps n (obj_setitem r i e) (fun _ => True).
Proof. intros Hr. unfold obj_setitem. keeps_auto. Qed.

Lemma keeps_Vector_new (r : ref) : keeps n (Vector_new r) (fun r' => (n <= r')%nat).
Proof. unfold Vector_new. keeps_auto. Qed.

Lemma keeps_Vector_to_4d (r : ref) : keeps n (Vector_to_4d r) (fun r' => (n <= r')%nat).
Proof. unfold Vector_to_4d. keeps_auto. Qed.

Lemma keeps_row_setslice_0_3 (m : ref) (row : nat) (e : item) :
  (n <= m)%nat -> keeps n (row_setslice_0_3 m row e) (fun _ => True).
Proof. intros Hm. unfold row_setslice_0_3. keeps_auto. Qed.

Lemma keeps_Matrix_transpose (m : ref) :
  (n <= m)%nat -> keeps n (Matrix_transpose m) (fun _ => True).
Proof. intros Hm. unfold Matrix_transpose. keeps_auto. Qed.

Lemma keeps_mul (m v : ref) : keeps n (mul m v) (fun r' => (n <= r')%nat).
Proof. unfold mul. keeps_auto. Qed.

Lemma keeps_Vector_neg (v : ref) : keeps n (Vector_neg v) (fun r' => (n <= r')%nat).
Proof. unfold Vector_neg. keeps_auto. Qed.

Lemma keeps_col3_assign (m v : ref) :
  (n <= m)%nat -> keeps n (col3_assign m v) (fun _ => True).
Proof. intros Hm. unfold col3_assign. keeps_auto. Qed.

Lemma keeps_for_range (rows : list nat) (body : nat -> M unit) :
  (forall row, keeps n (body row) (fun _ => True)) ->
  keeps n (for_range rows body) (fun _ => True).
Proof.
  intros Hbody. induction rows as [|row rows IH]; cbn.
  - apply keeps_ret. exact I.
  - eapply keeps_bind; [apply Hbody|]. intros _ _. exact IH.
Qed.

Lemma keeps_invert_y_and_z_axis (input : ref) :
  keeps n (Heap.invert_y_and_z_axis input) (fun r' => (n <= r')%nat).
Proof.
  unfold Heap.invert_y_and_z_axis.
  eapply keeps_bind; [apply keeps_copy|]. intros out Hout.
  eapply keeps_bind; [apply keeps_obj_getitem|]. intros e1 _.
  eapply keeps_bind; [apply keeps_obj_setitem; exact Hout|]. intros _ _.
  eapply keeps_bind; [apply keeps_obj_getitem|]. intros e2 _.
  eapply keeps_bind; [apply keeps_obj_setitem; exact Hout|]. intros _ _.
  apply keeps_ret. exact Hout.
Qed.

Lemma keeps_get_world_matrix_from_translation_vec (translation_vec rotation : ref) :
  keeps n (Heap.get_world_matrix_from_translation_vec translation_vec rotation)
        (fun r' => (n <= r')%nat).
Proof.
  unfold Heap.get_world_matrix_from_translation_vec.
  eapply keeps_bind; [apply keeps_Vector_new|]. intros t0 _.
  eapply keeps_bind; [apply keeps_Vector_to_4d|]. intros t _.
  eapply keeps_bind; [apply keeps_alloc|]. intros camera_rotation Hcam.
  eapply keeps_bind.
  { apply keeps_for_range. intros row.
    eapply keeps_bind; [apply keeps_obj_getitem|]. intros src _.
    apply keeps_row_setslice_0_3. exact Hcam. }
  intros _ _.
  eapply keeps_bind; [apply keeps_Matrix_transpose; exact Hcam|]. intros _ _.
  eapply keeps_bind; [apply keeps_mul|]. intros p _.
  eapply keeps_bind; [apply keeps_Vector_neg|]. intros camera_center Hcenter.
  eapply keeps_bind; [apply keeps_obj_setitem; exact Hcenter|]. intros _ _.
  eapply keeps_bind; [apply keeps_copy|]. intros result Hresult.
  eapply keeps_bind; [apply keeps_col3_assign; exact Hresult|]. intros _ _.
  apply keeps_ret. exact Hresult.
Qed.

End Frame.

Section Run.

Local Abbreviation value_get_world_matrix := get_world_matrix_from_translation_vec.
Local Abbreviation value_invert_y_and_z_axis := invert_y_and_z_axis.

Import Heap.
Local Open Scope nat_scope.

Lemma keeps_unchanged {A : Type} (m : M A) (post : A -> Prop) (h : heap) :
  keeps (length h) m post -> unchanged h (snd (m h)).
Proof.
  intros Hm r o Hr. destruct (Hm h (le_n _)) as (Hfirst & _ & _).
  assert (Hlt : (r < length h)%nat) by (apply nth_error_Some; congruence).
  rewrite firstn_all in Hfirst.
  apply Nat.ltb_lt in Hlt. rewrite <- Hr.
  transitivity (nth_error (firstn (length h) (snd (m h))) r).
  - rewrite nth_error_firstn, Hlt. reflexivity.
  - rewrite Hfirst. reflexivity.
Qed.

Lemma keeps_fresh (m : M ref) (h : heap) :
  keeps (length h) m (fun r => (length h <= r)%nat) -> fresh_in h (m h).
Proof.
  intros Hm. destruct (Hm h (le_n _)) as (_ & _ & Hpost).
  unfold fresh_in. destruct (fst (m h)); [|exact I].
  apply nth_error_None. exact Hpost.
Qed.

(** The store during a run: the objects [h] that were there before,
    followed by the objects [e] allocated since. *)

Lemma run_alloc (h e : heap) (o : object) :
  alloc o (h ++ e) = (Ok (length h + length e)%nat, h ++ (e ++ [o])).
Proof. unfold alloc. rewrite length_app, app_assoc. reflexivity. Qed.

Lemma nth_error_new (h e : heap) (k : nat) :
  nth_error (h ++ e) (length h + k) = nth_error e k.
Proof.
  rewrite nth_error_app2 by lia. f_equal. lia.
Qed.

Lemma nth_error_old (h e : heap) (r : ref) (o : object) :
  nth_error h r = Some o -> nth_error (h ++ e) r = Some o.
Proof.
  intros Hr. rewrite nth_error_app1; [exact Hr|].
  apply nth_error_Some. congruence.
Qed.

Lemma run_load_new (h e : heap) (k : nat) (o : object) :
  nth_error e k = Some o -> load (length h + k) (h ++ e) = (Ok o, h ++ e).
Proof. intros Hk. unfold load. rewrite nth_error_new, Hk. reflexivity. Qed.

Lemma run_load_old (h e : heap) (r : ref) (o : object) :
  nth_error h r = Some o -> load r (h ++ e) = (Ok o, h ++ e).
Proof. intros Hr. unfold load. rewrite (nth_error_old h e r o Hr). reflexivity. Qed.

Lemma update_new (h e : heap) (k : nat) (o : object) :
  update (length h + k) o (h ++ e) = h ++ update k o e.
Proof.
  induction h as [|x h IH]; cbn; [reflexivity|].
  f_equal. exact IH.
Qed.

Lemma run_store_new (h e : heap) (k : nat) (o x : object) :
  nth_error e k = Some x ->
  store (length h + k) o (h ++ e) = (Ok tt, h ++ update k o e).
Proof.
  intros Hk. unfold store. rewrite nth_error_new, Hk, update_new. reflexivity.
Qed.

Lemma run_bind {A B : Type} (m : M A) (k : A -> M B) (h h' : heap) (a : A)
    (res : result B * heap) :
  m h = (Ok a, h') -> k a h' = res -> mbind m k h = res.
Proof. intros Hm Hk. unfold mbind. rewrite Hm. exact Hk. Qed.

(** Runs a straight-line program on the store [h ++ e], [e] a given list. *)
Ltac run :=
  cbn [for_range seq item_neg];
  lazymatch goal with
  | |- mbind _ _ _ = _ => eapply run_bind; [run | cbn beta iota; run]
  | |- alloc _ (_ ++ _) = _ => apply run_alloc
  | |- load _ _ = _ =>
      first [ eapply run_load_new; reflexivity | eapply run_load_old; eassumption ]
  | |- store _ _ _ = _ => eapply run_store_new; reflexivity
  | |- _ => reflexivity
  end.

Lemma start_run {A : Type} (m : M A) (h : heap) (res : result A * heap) :
  m (h ++ []) = res -> m h = res.
Proof. rewrite app_nil_r. exact (fun H => H). Qed.

(** On a 3x3 matrix the flip returns a new matrix holding the flipped
    value; the store grows by this one object. *)
Lemma run_invert_y_and_z_axis_Matrix3 (h : heap) (input : ref) (m : Matrix3) :
  nth_error h input = Some (OMatrix3 m) ->
  Heap.invert_y_and_z_axis input h =
  (Ok (length h),
   h ++ [OMatrix3 (mkMatrix3 (m3r0 m) (neg (m3r1 m)) (neg (m3r2 m)))]).
Proof.
  intros Hin. rewrite <- (Nat.add_0_r (length h)). apply start_run.
  unfold Heap.invert_y_and_z_axis, copy, obj_getitem, obj_setitem.
  run.
Qed.

Lemma run_invert_y_and_z_axis_Vector3 (h : heap) (input : ref) (v : Vector3) :
  nth_error h input = Some (OVector3 v) ->
  Heap.invert_y_and_z_axis input h =
  (Ok (length h),
   h ++ [OVector3 (mkVector3 (v3x v) (neg (v3y v)) (neg (v3z v)))]).
Proof.
  intros Hin. rewrite <- (Nat.add_0_r (length h)). apply start_run.
  unfold Heap.invert_y_and_z_axis, copy, obj_getitem, obj_setitem.
  run.
Qed.

(** On a 3-vector and a 3x3 matrix the world matrix function allocates six
    objects, the last of which is the returned matrix; it holds the value
    the value-level function computes. *)
Lemma run_get_world_matrix_from_translation_vec
    (h : heap) (translation_vec rotation : ref) (t : Vector3) (r : Matrix3) :
  nth_error h translation_vec = Some (OVector3 t) ->
  nth_error h rotation = Some (OMatrix3 r) ->
  exists (w : Matrix4) (temporaries : list object),
    length temporaries = 5 /\
    value_get_world_matrix t r = Ok w /\
    Heap.get_world_matrix_from_translation_vec translation_vec rotation h =
    (Ok (length h + 5), h ++ (temporaries ++ [OMatrix4 w])).
Proof.
  intros Htv Hrot.
  refine (ex_intro _ _ (ex_intro _ [_; _; _; _; _] _)).
  split; [reflexivity|].
  split; cycle 1.
  - apply start_run.
    unfold Heap.get_world_matrix_from_translation_vec, Vector_new, Vector_to_4d,
      obj_getitem, row_setslice_0_3, Matrix_transpose, mul, Vector_neg,
      obj_setitem, copy, col3_assign.
    run.
  - reflexivity.
Qed.

Lemma unchanged_app (h e : heap) : unchanged h (h ++ e).
Proof. intros r o Hr. apply nth_error_old. exact Hr. Qed.

Lemma unchanged_trans (h1 h2 h3 : heap) :
  unchanged h1 h2 -> unchanged h2 h3 -> unchanged h1 h3.
Proof. intros H12 H23 r o Hr. apply H23, H12, Hr. Qed.

Lemma nth_error_returned (h temporaries : heap) (o : object) (k : nat) :
  length temporaries = k ->
  nth_error (h ++ (temporaries ++ [o])) (length h + k) = Some o.
Proof.
  intros <-. rewrite nth_error_new, nth_error_app2 by lia.
  rewrite Nat.sub_diag. reflexivity.
Qed.

(** C10: [invert_y_and_z_axis] and [get_world_matrix_from_translation_vec]
    leave every object that exists when they are called as it is, their
    arguments included, whatever they are called on, and the reference they
    return is a new one.  So a rotation matrix and a translation vector can
    be flipped and the flipped objects used for two world matrices, as
    [add_cameras] and [add_camera_image_plane] do: the store [h'] reached
    still has every object of [h] unchanged, the flipped objects hold the
    flipped values after both calls, and both world matrices are the same
    value [w], in two distinct objects. *)
Theorem geometry_functions_keep_their_arguments
    (h : heap) (rotation translation_vec : ref) (r : Matrix3) (t : Vector3)
    (Hrot : nth_error h rotation = Some (OMatrix3 r))
    (Htv : nth_error h translation_vec = Some (OVector3 t)) :
  (forall (h0 : heap) (x : ref),
     unchanged h0 (snd (Heap.invert_y_and_z_axis x h0)) /\
     fresh_in h0 (Heap.invert_y_and_z_axis x h0)) /\
  (forall (h0 : heap) (x y : ref),
     unchanged h0 (snd (Heap.get_world_matrix_from_translation_vec x y h0)) /\
     fresh_in h0 (Heap.get_world_matrix_from_translation_vec x y h0)) /\
  exists (rotation_mat translation camera_world plane_world : ref) (h' : heap)
         (rf : Matrix3) (tf : Vector3) (w : Matrix4),
    flip_then_two_world_matrices rotation translation_vec h =
      (Ok (rotation_mat, translation, camera_world, plane_world), h') /\
    unchanged h h' /\
    value_invert_y_and_z_axis r = Ok rf /\
    value_invert_y_and_z_axis t = Ok tf /\
    value_get_world_matrix tf rf = Ok w /\
    nth_error h' rotation_mat = Some (OMatrix3 rf) /\
    nth_error h' translation = Some (OVector3 tf) /\
    nth_error h' camera_world = Some (OMatrix4 w) /\
    nth_error h' plane_world = Some (OMatrix4 w) /\
    camera_world <> plane_world.
Proof.
  split; [|split].
  - intros h0 x. split.
    + eapply keeps_unchanged. apply keeps_invert_y_and_z_axis.
    + apply keeps_fresh. apply keeps_invert_y_and_z_axis.
  - intros h0 x y. split.
    + eapply keeps_unchanged. apply keeps_get_world_matrix_from_translation_vec.
    + apply keeps_fresh. apply keeps_get_world_matrix_from_translation_vec.
  - set (rf := mkMatrix3 (m3r0 r) (neg (m3r1 r)) (neg (m3r2 r))).
    set (tf := mkVector3 (v3x t) (neg (v3y t)) (neg (v3z t))).
    set (h1 := h ++ [OMatrix3 rf]).
    set (h2 := h1 ++ [OVector3 tf]).
    assert (Htv1 : nth_error h1 translation_vec = Some (OVector3 t))
      by (apply nth_error_old; exact Htv).
    assert (Hrf2 : nth_error h2 (length h) = Some (OMatrix3 rf)).
    { apply nth_error_old. unfold h1.
      rewrite <- (Nat.add_0_r (length h)). apply (nth_error_returned h []). reflexivity. }
    assert (Htf2 : nth_error h2 (length h1) = Some (OVector3 tf)).
    { unfold h2. rewrite <- (Nat.add_0_r (length h1)).
      apply (nth_error_returned h1 []). reflexivity. }
    destruct (run_get_world_matrix_from_translation_vec h2 _ _ tf rf Htf2 Hrf2)
      as (w & tmp & Hlen & Hval & Hrun).
    set (h3 := h2 ++ (tmp ++ [OMatrix4 w])) in *.
    assert (U23 : unchanged h2 h3) by apply unchanged_app.
    destruct (run_get_world_matrix_from_translation_vec h3 _ _ tf rf
                (U23 _ _ Htf2) (U23 _ _ Hrf2))
      as (w' & tmp' & Hlen' & Hval' & Hrun').
    assert (w' = w) by congruence. subst w'.
    exists (length h), (length h1), (length h2 + 5), (length h3 + 5).
    exists (h3 ++ (tmp' ++ [OMatrix4 w])), rf, tf, w.
    assert (U34 : unchanged h3 (h3 ++ (tmp' ++ [OMatrix4 w]))) by apply unchanged_app.
    split.
    { unfold flip_then_two_world_matrices, mbind.
      rewrite (run_invert_y_and_z_axis_Matrix3 h rotation r Hrot).
      fold rf. fold h1.
      rewrite (run_invert_y_and_z_axis_Vector3 h1 translation_vec t Htv1).
      fold tf. fold h2.
      rewrite Hrun, Hrun'. reflexivity. }
    split.
    { eapply unchanged_trans; [apply unchanged_app|].
      eapply unchanged_trans; [apply unchanged_app|].
      eapply unchanged_trans; [exact U23 | exact U34]. }
    split; [reflexivity|]. split; [reflexivity|]. split; [exact Hval|].
    split; [apply U34, U23, Hrf2|].
    split; [apply U34, U23, Htf2|].
    split; [apply U34; apply nth_error_returned; exact Hlen|].
    split; [apply nth_error_returned; exact Hlen'|].
    unfold h3. rewrite !length_app. cbn [length]. lia.
Qed.

End Run.

(** The store of the witness: the identity rotation and the vector (1,2,3). *)
Lemma geometry_functions_keep_their_arguments_witness :
  exists (rotation_mat translation camera_world plane_world : Heap.ref) (h' : Heap.heap)
         (rf : Matrix3) (tf : Vector3) (w : Matrix4),
    flip_then_two_world_matrices 0%nat 1%nat
      [Heap.OMatrix3 identity3; Heap.OVector3 (mkVector3 1 2 3)] =
      (Ok (rotation_mat, translation, camera_world, plane_world), h') /\
    Heap.unchanged [Heap.OMatrix3 identity3; Heap.OVector3 (mkVector3 1 2 3)] h' /\
    invert_y_and_z_axis identity3 = Ok rf /\
    invert_y_and_z_axis (mkVector3 1 2 3) = Ok tf /\
    get_world_matrix_from_translation_vec tf rf = Ok w /\
    nth_error h' rotation_mat = Some (Heap.OMatrix3 rf) /\
    nth_error h' translation = Some (Heap.OVector3 tf) /\
    nth_error h' camera_world = Some (Heap.OMatrix4 w) /\
    nth_error h' plane_world = Some (Heap.OMatrix4 w) /\
    camera_world <> plane_world.
Proof.
  apply (geometry_functions_keep_their_arguments
           [Heap.OMatrix3 identity3; Heap.OVector3 (mkVector3 1 2 3)] 0%nat 1%nat
           identity3 (mkVector3 1 2 3)); reflexivity.
Defined.

Lemma parse_rejects_missing_signature_witness :
  let read_float := example_read_float in
  let read_int := example_read_int in
  let make_camera := example_make_camera in
  let read_file := fun _ : String.string => Some "NVM_V2 FixedK"%string in
  let image_size := fun _ : String.string => @None (Z * Z) in
  let dirname := fun p : String.string => p in
  let join := fun p q : String.string => String.append p q in
  let self := NVMFileHandler.mkImportNVM true 1920%Z 1080%Z true in
  let scene := mkScene [] [] in
  NVMFileHandler.parse_nvm_file read_float read_int make_camera "NVM_V2 FixedK"%string =
    Raise FormatError /\
  NVMFileHandler.import_path read_float read_int make_camera read_file image_size
    dirname join self "model.nvm"%string scene = (scene, Raise FormatError) /\
  NVMFileHandler.execute read_float read_int make_camera read_file image_size
    dirname join self ["model.nvm"%string; "other.nvm"%string] scene =
    (scene, Raise FormatError).
Proof.
  intros.
  destruct (parse_rejects_missing_signature read_float read_int make_camera read_file
              image_size dirname join self "model.nvm"%string "NVM_V2 FixedK"%string
              ["other.nvm"%string] scene) as (Hparse & Himport & Hrun & _).
  - reflexivity.
  - vm_compute. discriminate.
  - split; [exact Hparse|]. split; [exact Himport | exact Hrun].
Defined.

Lemma quaternion_to_rotation_mat_identity :
  NVMFileHandler.quaternion_to_rotation_mat 1 0 0 0 = Ok identity3.
Proof.
  unfold NVMFileHandler.quaternion_to_rotation_mat.
  destruct (Req_dec_T (1 * 1 + 0 * 0 + 0 * 0 + 0 * 0) 0) as [Hz | _]; [lra|].
  f_equal. unfold identity3. entrywise; field.
Qed.

(** The parser accepts the example file and yields the example camera and no
    point. *)
Example parse_example_file :
  NVMFileHandler.parse_nvm_file example_read_float example_read_int example_make_camera
    example_file = Ok ([example_camera], []).
Proof.
  unfold NVMFileHandler.parse_nvm_file.
  replace (NVMFileHandler.tokenize example_file)
    with [["NVM_V3"]; ["1"];
          ["img.jpg"; "1000.0"; "1"; "0"; "0"; "0"; "0"; "0"; "0"; "0.0"; "0"];
          ["0"]]%string
    by (vm_compute; reflexivity).
  cbn -[NVMFileHandler.quaternion_to_rotation_mat].
  change (Pos.to_nat 1) with 1%nat.
  cbn -[NVMFileHandler.quaternion_to_rotation_mat].
  rewrite quaternion_to_rotation_mat_identity. reflexivity.
Qed.

(** The import of the example file, with no image file at hand and the
    default size 1920x1080: one point cloud without vertices and one camera
    object are added to the empty scene. *)
Example import_example_file :
  NVMFileHandler.import_path example_read_float example_read_int example_make_camera
    (fun _ => Some example_file) (fun _ => None) (fun p => p) String.append
    (NVMFileHandler.mkImportNVM true 1920%Z 1080%Z true) "model.nvm"%string
    (mkScene [] []) =
  (mkScene
     [mkCameraObject (atan (1920 / (1000 * 2)) * 2) (atan (1080 / (1000 * 2)) * 2)
                     (diag4 1 (-1) (-1) 1)]
     [[]],
   Ok tt).
Proof.
  unfold NVMFileHandler.import_path.
  rewrite parse_example_file.
  cbn [NVMFileHandler.import_points NVMFileHandler.import_cameras
       NVMFileHandler.default_width NVMFileHandler.default_height
       NVMFileHandler.parse_camera_image_files map NVMFileHandler.resolve_camera
       example_camera width height file_name calibration_mat get_translation_vec
       get_rotation_mat add_points_as_mesh scene_cameras scene_meshes app add_cameras].
  unfold add_camera.
  erewrite (field_of_view_value _ 1920 1080); try reflexivity; [|cbn; lra].
  rewrite world_matrix_value. cbn.
  do 3 f_equal. unfold diag4. f_equal. entrywise.
Qed.

(** * Further properties of [import_nvm_op.py] *)

(** ** The world matrix as an inverse *)

Lemma orthonormal_transpose (r : Matrix3) :
  orthonormal r -> mul_m3 (transpose3 r) r = identity3.
Proof.
  unfold orthonormal. destruct r as [[a b c] [d e f] [g h i]].
  unfold mul_m3, identity3. cbn. unfold dot3. cbn.
  intros H. injection H as H00 H01 H02 H10 H11 H12 H20 H21 H22.
  repeat first [apply Matrix3_eq | apply Vector3_eq]; nsatz.
Qed.

(** X1: for an orthonormal rotation [r] and any translation vector [t], the
    matrix returned by [get_world_matrix_from_translation_vec] is the inverse
    of the world-to-camera matrix [[r | t]; (0,0,0,1)]: both products are the
    identity. *)
Theorem world_matrix_inverts_extrinsic_matrix (t : Vector3) (r : Matrix3)
    (Horth : orthonormal r) :
  exists w : Matrix4,
    get_world_matrix_from_translation_vec t r = Ok w /\
    mul_m4 (extrinsic_matrix r t) w = identity4 /\
    mul_m4 w (extrinsic_matrix r t) = identity4.
Proof.
  rewrite get_world_matrix_from_translation_vec_value. eexists. split; [reflexivity|].
  pose proof (orthonormal_transpose r Horth) as Hcol.
  unfold orthonormal in Horth.
  destruct r as [[a b c] [d e f] [g h i]], t as [tx ty tz].
  unfold mul_m3, identity3 in Horth, Hcol. cbn in Horth, Hcol.
  unfold dot3 in Horth, Hcol. cbn in Horth, Hcol.
  injection Horth as R00 R01 R02 R10 R11 R12 R20 R21 R22.
  injection Hcol as C00 C01 C02 C10 C11 C12 C20 C21 C22.
  split; unfold identity4, Matrix_new, mul_m4, extrinsic_matrix;
    repeat first [apply Matrix4_eq | apply Vector4_eq];
    cbn; unfold dot4, dot3, neg, Neg_float; cbn; nsatz.
Qed.

Lemma world_matrix_inverts_extrinsic_matrix_witness :
  exists w : Matrix4,
    get_world_matrix_from_translation_vec (mkVector3 1 2 3)
      (get_rotation_mat camera_quarter_turn) = Ok w /\
    mul_m4 (extrinsic_matrix (get_rotation_mat camera_quarter_turn) (mkVector3 1 2 3)) w
      = identity4 /\
    mul_m4 w (extrinsic_matrix (get_rotation_mat camera_quarter_turn) (mkVector3 1 2 3))
      = identity4.
Proof.
  apply (world_matrix_inverts_extrinsic_matrix (mkVector3 1 2 3)
           (get_rotation_mat camera_quarter_turn)).
  unfold orthonormal, identity3. entrywise.
Defined.

(** X2: the axis flip in [add_cameras] turns the camera about its own x
    axis and does not move it: the world matrix of a camera is the world
    matrix of its unflipped rotation and translation multiplied from the
    right by diag(1,-1,-1,1), for every rotation and translation. *)
Theorem world_matrix_is_unflipped_times_rotation (camera : Camera) :
  exists w0 w : Matrix4,
    get_world_matrix_from_translation_vec
      (get_translation_vec camera) (get_rotation_mat camera) = Ok w0 /\
    world_matrix camera = Ok w /\
    w = mul_m4 w0 (diag4 1 (-1) (-1) 1) /\
    translation_column w = translation_column w0.
Proof.
  rewrite get_world_matrix_from_translation_vec_value, world_matrix_value.
  do 2 eexists. split; [reflexivity|]. split; [reflexivity|].
  destruct (get_rotation_mat camera) as [[a b c] [d e f] [g h i]].
  destruct (get_translation_vec camera) as [tx ty tz].
  split; unfold mul_m4, diag4; entrywise.
Qed.

(** X3: the axis flip keeps rotations rotations: the flipped matrix has the
    same determinant, is orthonormal when the matrix is, flipped vectors have
    the same dot product, and flipping the product of a matrix and a vector
    is the product of the flipped matrix and the vector. *)
Theorem invert_y_and_z_axis_preserves_rotations (m : Matrix3) (u v : Vector3) :
  exists (m' : Matrix3) (u' v' : Vector3),
    invert_y_and_z_axis m = Ok m' /\
    invert_y_and_z_axis u = Ok u' /\
    invert_y_and_z_axis v = Ok v' /\
    det3 m' = det3 m /\
    (orthonormal m -> orthonormal m') /\
    dot3 u' v' = dot3 u v /\
    invert_y_and_z_axis (mul_m3_v3 m u) = Ok (mul_m3_v3 m' u).
Proof.
  rewrite invert_y_and_z_axis_Matrix3, !invert_y_and_z_axis_Vector3.
  do 3 eexists. do 3 (split; [reflexivity|]).
  destruct m as [[a b c] [d e f] [g h i]], u as [ux uy uz], v as [vx vy vz].
  split; [cbn; unfold neg, Neg_float; ring|].
  split; [|split].
  - unfold orthonormal, mul_m3, identity3. cbn. unfold dot3. cbn.
    intros H. injection H as H00 H01 H02 H10 H11 H12 H20 H21 H22.
    unfold neg, Neg_float.
    repeat first [apply Matrix3_eq | apply Vector3_eq]; nsatz.
  - cbn. unfold dot3, neg, Neg_float. cbn. ring.
  - f_equal. entrywise.
Qed.

(** ** Field of view and image plane *)

Lemma atan_pos (x : R) : 0 < x -> 0 < atan x.
Proof. intros Hx. rewrite <- atan_0. apply atan_increasing. exact Hx. Qed.

Lemma tan_half_opening_angle (x : R) : tan (atan x * 2 / 2) = x.
Proof. replace (atan x * 2 / 2) with (atan x) by field. apply tan_atan. Qed.

(** X4: for a camera with positive width, height and focal length both
    opening angles lie strictly between 0 and pi, and the focal length can be
    read back from them: [tan (angle_x / 2) = width / (2 * focal_length)] and
    [tan (angle_y / 2) = height / (2 * focal_length)]. *)
Theorem field_of_view_range (camera : Camera) (w h : Z)
    (Hw : width camera = Some w) (Hh : height camera = Some h)
    (Hwpos : (0 < w)%Z) (Hhpos : (0 < h)%Z)
    (Hf : 0 < focal_length_of camera) :
  exists ax ay : R,
    field_of_view camera = Ok (ax, ay) /\
    0 < ax < PI /\ 0 < ay < PI /\
    tan (ax / 2) = IZR w / (2 * focal_length_of camera) /\
    tan (ay / 2) = IZR h / (2 * focal_length_of camera).
Proof.
  rewrite (field_of_view_value camera w h Hw Hh) by lra.
  do 2 eexists. split; [reflexivity|].
  apply IZR_lt in Hwpos, Hhpos.
  assert (Hqx : 0 < IZR w / (focal_length_of camera * 2))
    by (apply Rdiv_lt_0_compat; lra).
  assert (Hqy : 0 < IZR h / (focal_length_of camera * 2))
    by (apply Rdiv_lt_0_compat; lra).
  pose proof (atan_pos _ Hqx). pose proof (atan_pos _ Hqy).
  pose proof (opening_angle_bounds (IZR w / (focal_length_of camera * 2))).
  pose proof (opening_angle_bounds (IZR h / (focal_length_of camera * 2))).
  rewrite !tan_half_opening_angle, (Rmult_comm 2 (focal_length_of camera)).
  repeat split; lra.
Qed.

Lemma field_of_view_range_witness :
  exists ax ay : R,
    field_of_view camera_1_2_3 = Ok (ax, ay) /\
    0 < ax < PI /\ 0 < ay < PI /\
    tan (ax / 2) = IZR 1920 / (2 * focal_length_of camera_1_2_3) /\
    tan (ay / 2) = IZR 1080 / (2 * focal_length_of camera_1_2_3).
Proof.
  apply (field_of_view_range camera_1_2_3 1920 1080);
    try reflexivity; cbn; lra.
Defined.

Lemma half_decimal : 0.5 = / 2.
Proof. lra. Qed.

Lemma minus_half_decimal : -0.5 = - / 2.
Proof. lra. Qed.

Lemma add_camera_image_plane_value (r : Matrix3) (t : Vector3) (w h : Z) (f : R) :
  f <> 0 ->
  add_camera_image_plane r t w h f =
  (m <- get_world_matrix_from_translation_vec t r ;;
   Ok (mkImagePlane
         [mkVector3 (- (IZR w / (2 * f))) (- (IZR h / (2 * f))) (-1);
          mkVector3 (IZR w / (2 * f)) (- (IZR h / (2 * f))) (-1);
          mkVector3 (IZR w / (2 * f)) (IZR h / (2 * f)) (-1);
          mkVector3 (- (IZR w / (2 * f))) (IZR h / (2 * f)) (-1)]
         [[0; 1; 2; 3]%nat] m)).
Proof.
  intros Hf. unfold add_camera_image_plane.
  rewrite !float_div_nonzero by exact Hf. cbn [bind].
  rewrite get_world_matrix_from_translation_vec_value. cbn [bind].
  f_equal. f_equal. cbn [map fst snd].
  unfold vec_add, vec_rmul, vec_mul, neg, Neg_Vector3. cbn.
  rewrite ?half_decimal, ?minus_half_decimal.
  repeat (apply (f_equal2 cons); [apply Vector3_eq; field; exact Hf|]).
  reflexivity.
Qed.

(** X5: [add_camera_image_plane] raises on a focal length of 0 (division by
    zero) and otherwise returns a rectangle at distance 1 in front of the
    camera (z = -1), centred on the viewing axis, [width / focal_length] wide
    and [height / focal_length] high, with the one face (0,1,2,3) and the
    world matrix of [get_world_matrix_from_translation_vec] on the same
    rotation and translation. *)
Theorem add_camera_image_plane_rectangle
    (r : Matrix3) (t : Vector3) (w h : Z) (f : R) :
  (f = 0 -> add_camera_image_plane r t w h f = Raise ZeroDivisionError) /\
  (f <> 0 ->
   exists m : Matrix4,
     get_world_matrix_from_translation_vec t r = Ok m /\
     add_camera_image_plane r t w h f =
     Ok (mkImagePlane
           [mkVector3 (- (IZR w / f / 2)) (- (IZR h / f / 2)) (-1);
            mkVector3 (IZR w / f / 2) (- (IZR h / f / 2)) (-1);
            mkVector3 (IZR w / f / 2) (IZR h / f / 2) (-1);
            mkVector3 (- (IZR w / f / 2)) (IZR h / f / 2) (-1)]
           [[0; 1; 2; 3]%nat] m)).
Proof.
  split.
  - intros ->. unfold add_camera_image_plane. rewrite float_div_zero. reflexivity.
  - intros Hf. rewrite (add_camera_image_plane_value r t w h f Hf).
    rewrite get_world_matrix_from_translation_vec_value.
    eexists. split; [reflexivity|]. cbn [bind].
    do 2 f_equal.
    repeat (apply (f_equal2 cons); [apply Vector3_eq; field; exact Hf|]).
    reflexivity.
Qed.

Lemma add_camera_image_plane_rectangle_witness :
  add_camera_image_plane identity3 (mkVector3 1 2 3) 1920 1080 0 =
    Raise ZeroDivisionError /\
  exists m : Matrix4,
    get_world_matrix_from_translation_vec (mkVector3 1 2 3) identity3 = Ok m /\
    add_camera_image_plane identity3 (mkVector3 1 2 3) 1920 1080 1000 =
    Ok (mkImagePlane
          [mkVector3 (- (IZR 1920 / 1000 / 2)) (- (IZR 1080 / 1000 / 2)) (-1);
           mkVector3 (IZR 1920 / 1000 / 2) (- (IZR 1080 / 1000 / 2)) (-1);
           mkVector3 (IZR 1920 / 1000 / 2) (IZR 1080 / 1000 / 2) (-1);
           mkVector3 (- (IZR 1920 / 1000 / 2)) (IZR 1080 / 1000 / 2) (-1)]
          [[0; 1; 2; 3]%nat] m).
Proof.
  split.
  - apply (add_camera_image_plane_rectangle identity3 (mkVector3 1 2 3) 1920 1080 0).
    reflexivity.
  - apply (add_camera_image_plane_rectangle identity3 (mkVector3 1 2 3) 1920 1080 1000).
    lra.
Defined.

Section ImagePlaneProperties.

Variable isfile : String.string -> bool.
Variable join : String.string -> String.string -> String.string.

Lemma add_camera_and_image_plane_unset
    (path_to_images : String.string) (add_image_planes : bool) (camera : Camera) :
  width camera = None \/ height camera = None ->
  add_camera_and_image_plane isfile join path_to_images add_image_planes camera =
  Raise AssertionError.
Proof.
  unfold add_camera_and_image_plane. intros [-> | ->]; [reflexivity|].
  destruct (width camera); reflexivity.
Qed.

Lemma add_camera_and_image_plane_zero_focal
    (path_to_images : String.string) (add_image_planes : bool) (camera : Camera)
    (w h : Z) :
  width camera = Some w -> height camera = Some h -> focal_length_of camera = 0 ->
  add_camera_and_image_plane isfile join path_to_images add_image_planes camera =
  Raise ZeroDivisionError.
Proof.
  intros Hw Hh Hf. unfold add_camera_and_image_plane. rewrite Hw, Hh. cbn.
  fold (focal_length_of camera). rewrite Hf, Rmult_0_l, float_div_zero. reflexivity.
Qed.

Lemma add_camera_and_image_plane_value
    (path_to_images : String.string) (add_image_planes : bool) (camera : Camera)
    (w h : Z) :
  width camera = Some w -> height camera = Some h -> focal_length_of camera <> 0 ->
  exists (cam : CameraObject) (plane : ImagePlane),
    add_camera camera = Ok cam /\
    add_camera_and_image_plane isfile join path_to_images add_image_planes camera =
    Ok (cam,
        if add_image_planes && isfile (join path_to_images (file_name camera))
        then Some plane else None) /\
    plane_matrix_world plane = matrix_world cam /\
    plane_faces plane = [[0; 1; 2; 3]%nat] /\
    plane_vertices plane =
    [mkVector3 (- tan (angle_x cam / 2)) (- tan (angle_y cam / 2)) (-1);
     mkVector3 (tan (angle_x cam / 2)) (- tan (angle_y cam / 2)) (-1);
     mkVector3 (tan (angle_x cam / 2)) (tan (angle_y cam / 2)) (-1);
     mkVector3 (- tan (angle_x cam / 2)) (tan (angle_y cam / 2)) (-1)].
Proof.
  intros Hw Hh Hf.
  unfold add_camera, add_camera_and_image_plane.
  rewrite (field_of_view_value camera w h Hw Hh Hf), Hw, Hh.
  pose proof (world_matrix_value camera) as Hm. rewrite Hm.
  unfold world_matrix in Hm.
  rewrite invert_y_and_z_axis_Matrix3, invert_y_and_z_axis_Vector3 in *.
  cbn [bind getitem Subscript_Matrix3 Subscript_Vector3 fst snd] in *.
  fold (focal_length_of camera).
  rewrite !float_div_nonzero by lra. cbn [bind].
  rewrite Hm. cbn [bind].
  rewrite (add_camera_image_plane_value _ _ w h _ Hf), Hm. cbn [bind].
  match goal with
  | |- context [Some ?p] =>
      match type of p with ImagePlane => eexists; exists p end
  end.
  split; [reflexivity|]. split.
  - destruct add_image_planes; cbn [andb]; [|reflexivity].
    destruct (isfile _); reflexivity.
  - cbn [plane_matrix_world plane_faces plane_vertices matrix_world angle_x angle_y].
    rewrite !tan_half_opening_angle.
    split; [reflexivity|]. split; [reflexivity|].
    repeat (apply (f_equal2 cons); [apply Vector3_eq; try field; try exact Hf|]).
    reflexivity.
Qed.

(** X6: when [add_cameras] adds an image plane for a camera (the option is
    on, the image file exists, width and height are set and the focal length
    is not 0), the plane gets the very world matrix of the camera object, and
    its four corners lie at distance 1 in front of the camera at
    [(+-tan (angle_x / 2), +-tan (angle_y / 2), -1)]: the plane fills the
    field of view of the camera exactly. *)
Theorem image_plane_fills_field_of_view
    (path_to_images : String.string) (camera : Camera) (w h : Z)
    (Hw : width camera = Some w) (Hh : height camera = Some h)
    (Hf : focal_length_of camera <> 0)
    (Hfile : isfile (join path_to_images (file_name camera)) = true) :
  exists (cam : CameraObject) (plane : ImagePlane),
    add_camera_and_image_plane isfile join path_to_images true camera =
      Ok (cam, Some plane) /\
    plane_matrix_world plane = matrix_world cam /\
    plane_faces plane = [[0; 1; 2; 3]%nat] /\
    plane_vertices plane =
    [mkVector3 (- tan (angle_x cam / 2)) (- tan (angle_y cam / 2)) (-1);
     mkVector3 (tan (angle_x cam / 2)) (- tan (angle_y cam / 2)) (-1);
     mkVector3 (tan (angle_x cam / 2)) (tan (angle_y cam / 2)) (-1);
     mkVector3 (- tan (angle_x cam / 2)) (tan (angle_y cam / 2)) (-1)].
Proof.
  destruct (add_camera_and_image_plane_value path_to_images true camera w h Hw Hh Hf)
    as (cam & plane & _ & Hrun & Hprops).
  exists cam, plane. split; [|exact Hprops].
  rewrite Hrun, Hfile. reflexivity.
Qed.

(** X7: image planes never change what [add_cameras] does for the camera
    itself: with or without the option, for an existing or a missing image
    file, the camera object is the one built without image planes, and an
    exception is raised exactly when it is raised without image planes, and
    it is the same one.  An image plane is built exactly when the option is
    on and the image file exists. *)
Theorem image_planes_do_not_change_cameras
    (path_to_images : String.string) (add_image_planes : bool) (camera : Camera) :
  match add_camera_and_image_plane isfile join path_to_images add_image_planes camera with
  | Ok (cam, plane) =>
      add_camera camera = Ok cam /\
      (plane <> None <->
       add_image_planes = true /\
       isfile (join path_to_images (file_name camera)) = true)
  | Raise e => add_camera camera = Raise e
  end.
Proof.
  destruct (width camera) as [w|] eqn:Hw.
  2: { rewrite add_camera_and_image_plane_unset by (left; exact Hw).
       unfold add_camera. rewrite field_of_view_unset by (left; exact Hw). reflexivity. }
  destruct (height camera) as [h|] eqn:Hh.
  2: { rewrite add_camera_and_image_plane_unset by (right; exact Hh).
       unfold add_camera. rewrite field_of_view_unset by (right; exact Hh). reflexivity. }
  destruct (Req_dec_T (focal_length_of camera) 0) as [Hf | Hf].
  - rewrite (add_camera_and_image_plane_zero_focal _ _ _ w h Hw Hh Hf).
    unfold add_camera. rewrite (field_of_view_zero_focal _ w h Hw Hh Hf). reflexivity.
  - destruct (add_camera_and_image_plane_value path_to_images add_image_planes
                camera w h Hw Hh Hf) as (cam & plane & Hcam & Hrun & _).
    rewrite Hrun. split; [exact Hcam|].
    destruct add_image_planes; cbn [andb].
    + destruct (isfile _); split; try discriminate; try congruence; auto.
      intros [_ H]. discriminate H.
    + split; [congruence|]. intros [H _]. discriminate H.
Qed.

End ImagePlaneProperties.

Lemma image_plane_fills_field_of_view_witness :
  exists (cam : CameraObject) (plane : ImagePlane),
    add_camera_and_image_plane (fun _ => true) String.append "images/"%string true
      camera_1_2_3 = Ok (cam, Some plane) /\
    plane_matrix_world plane = matrix_world cam /\
    plane_faces plane = [[0; 1; 2; 3]%nat] /\
    plane_vertices plane =
    [mkVector3 (- tan (angle_x cam / 2)) (- tan (angle_y cam / 2)) (-1);
     mkVector3 (tan (angle_x cam / 2)) (- tan (angle_y cam / 2)) (-1);
     mkVector3 (tan (angle_x cam / 2)) (tan (angle_y cam / 2)) (-1);
     mkVector3 (- tan (angle_x cam / 2)) (tan (angle_y cam / 2)) (-1)].
Proof.
  apply (image_plane_fills_field_of_view (fun _ => true) String.append "images/"%string
           camera_1_2_3 1920 1080); try reflexivity.
  cbn. lra.
Defined.

(** ** The loop of [add_cameras] *)









(** ** The loop of [ImportNVM.execute] *)

Section ExecuteProperties.

Import NVMFileHandler.

Variable read_float : String.string -> option R.
Variable read_int : String.string -> option Z.
Variable make_camera :
  String.string -> R -> Matrix3 -> Vector3 -> R -> Z -> Camera.
Variable read_file : String.string -> option String.string.
Variable image_size : String.string -> option (Z * Z).
Variable dirname : String.string -> String.string.
Variable join : String.string -> String.string -> String.string.

Local Abbreviation import :=
  (import_path read_float read_int make_camera read_file image_size dirname join).
Local Abbreviation run :=
  (execute read_float read_int make_camera read_file image_size dirname join).

Lemma execute_app (self : ImportNVM) (before after : list String.string)
    (scene scene1 : Scene) :
  run self before scene = (scene1, Ok tt) ->
  run self (before ++ after) scene = run self after scene1.
Proof.
  revert scene. induction before as [|path before IH]; intros scene Hrun.
  - cbn in Hrun. injection Hrun as ->. reflexivity.
  - cbn [execute app] in *.
    destruct (import self path scene) as [scene' [[] | e]]; [|discriminate].
    apply IH. exact Hrun.
Qed.

(** X11: [execute] imports the files in turn and stops at the first one
    whose import raises: when the paths [before] are imported without an
    exception and the import of [path] raises [e], then [execute] on
    [before ++ path :: after] raises [e], the scene is the one the failing
    import left (with everything the files of [before] added), and no file
    of [after] is read. *)
Theorem execute_stops_at_first_failure
    (self : ImportNVM) (before after : list String.string) (path : String.string)
    (scene scene1 scene2 : Scene) (e : exn)
    (Hbefore : run self before scene = (scene1, Ok tt))
    (Hpath : import self path scene1 = (scene2, Raise e)) :
  run self (before ++ path :: after) scene = (scene2, Raise e).
Proof.
  rewrite (execute_app self before (path :: after) scene scene1 Hbefore).
  cbn [execute]. rewrite Hpath. reflexivity.
Qed.




End ExecuteProperties.

Lemma import_example_file_from
    (read_file : String.string -> option String.string)
    (dirname : String.string -> String.string)
    (join : String.string -> String.string -> String.string)
    (path : String.string) (scene : Scene) :
  read_file path = Some example_file ->
  NVMFileHandler.import_path example_read_float example_read_int example_make_camera
    read_file (fun _ => None) dirname join
    (NVMFileHandler.mkImportNVM true 1920%Z 1080%Z true) path scene =
  (mkScene (scene_cameras scene ++ [example_camera_object])
           (scene_meshes scene ++ [[]]),
   Ok tt).
Proof.
  intros Hfile. unfold NVMFileHandler.import_path.
  rewrite Hfile, parse_example_file.
  cbn [NVMFileHandler.import_points NVMFileHandler.import_cameras
       NVMFileHandler.default_width NVMFileHandler.default_height
       NVMFileHandler.parse_camera_image_files map NVMFileHandler.resolve_camera
       example_camera width height file_name calibration_mat get_translation_vec
       get_rotation_mat add_points_as_mesh scene_cameras scene_meshes add_cameras].
  unfold add_camera.
  erewrite (field_of_view_value _ 1920 1080); try reflexivity; [|cbn; lra].
  rewrite world_matrix_value. cbn.
  do 3 f_equal. unfold example_camera_object, diag4. do 2 f_equal. entrywise.
Qed.

Lemma execute_stops_at_first_failure_witness :
  NVMFileHandler.execute example_read_float example_read_int example_make_camera
    example_read_file (fun _ => None) (fun p => p) String.append
    (NVMFileHandler.mkImportNVM true 1920%Z 1080%Z true)
    (["good.nvm"%string] ++ "bad.nvm"%string :: ["never.nvm"%string])
    (mkScene [] []) =
  (mkScene [example_camera_object] [[]], Raise FormatError).
Proof.
  apply (execute_stops_at_first_failure example_read_float example_read_int
           example_make_camera example_read_file (fun _ => None) (fun p => p)
           String.append (NVMFileHandler.mkImportNVM true 1920%Z 1080%Z true)
           ["good.nvm"%string] ["never.nvm"%string] "bad.nvm"%string
           (mkScene [] []) (mkScene [example_camera_object] [[]])).
  - cbn [NVMFileHandler.execute].
    rewrite (import_example_file_from example_read_file (fun p => p) String.append
               "good.nvm"%string (mkScene [] []) eq_refl).
    reflexivity.
  - apply (import_path_aborts_on_parse_error example_read_float example_read_int
             example_make_camera example_read_file (fun _ => None) (fun p => p)
             String.append _ "bad.nvm"%string "NVM_V2"%string).
    + reflexivity.
    + apply parse_nvm_file_without_signature. vm_compute. discriminate.
Defined.

(** ** Meshes at the vertex positions *)

Lemma byte_component_unit (c : Z) : (0 <= c <= 255)%Z <-> 0 <= IZR c / 255 <= 1.
Proof.
  split.
  - intros [H0 H1]. apply IZR_le in H0, H1. lra.
  - intros [H0 H1]. split; apply le_IZR; lra.
Qed.

(** X14: [add_points_as_mesh] with meshes at the vertex positions makes one
    object per point, in the order of the points: the object of a point lies
    at the coordinates of the point, has half the point extent as radius, and
    its diffuse colour is the colour of the point divided by 255, which is a
    colour with components from 0 to 1 exactly when the components of the
    point colour are from 0 to 255 (nothing is clamped).  Every mesh type
    other than [PLANE] and [CUBE], known or not, gives a UV sphere. *)
Theorem point_objects_follow_points
    (points : list Point) (mesh_type : String.string) (point_extent : R)
    (i : nat) (point : Point)
    (Hpoint : nth_error points i = Some point) :
  length (add_meshes_at_vertex_positions points mesh_type point_extent) = length points /\
  exists obj : PointObject,
    nth_error (add_meshes_at_vertex_positions points mesh_type point_extent) i = Some obj /\
    location obj = coord point /\
    radius obj = point_extent / 2 /\
    diffuse_color obj =
      (let '(r, g, b) := color point in (IZR r / 255, IZR g / 255, IZR b / 255)) /\
    (unit_colour (diffuse_color obj) <-> byte_colour (color point)) /\
    (mesh_type <> "PLANE"%string -> mesh_type <> "CUBE"%string ->
     primitive obj = PrimitiveUVSphere).
Proof.
  unfold add_meshes_at_vertex_positions.
  split; [apply length_map|].
  rewrite nth_error_map, Hpoint. cbn [option_map].
  eexists. split; [reflexivity|].
  destruct (color point) as [[r g] b] eqn:Hcolor.
  cbn [location radius diffuse_color primitive].
  split; [reflexivity|]. split; [lra|]. split; [reflexivity|]. split.
  - unfold unit_colour, byte_colour. rewrite <- !byte_component_unit. reflexivity.
  - intros Hplane Hcube.
    apply String.eqb_neq in Hplane, Hcube. rewrite Hplane, Hcube.
    destruct (String.eqb mesh_type "SPHERE"); reflexivity.
Qed.

Lemma point_objects_follow_points_witness :
  length (add_meshes_at_vertex_positions example_points "TORUS"%string 0.01) =
    length example_points /\
  exists obj : PointObject,
    nth_error (add_meshes_at_vertex_positions example_points "TORUS"%string 0.01) 2 = Some obj /\
    location obj = mkVector3 4 5 6 /\
    radius obj = 0.01 / 2 /\
    diffuse_color obj = (IZR 300 / 255, IZR 0 / 255, IZR 0 / 255) /\
    (unit_colour (diffuse_color obj) <-> byte_colour (300, 0, 0)%Z) /\
    ("TORUS"%string <> "PLANE"%string -> "TORUS"%string <> "CUBE"%string ->
     primitive obj = PrimitiveUVSphere).
Proof.
  apply (point_objects_follow_points example_points "TORUS"%string 0.01 2
           (mkPoint (mkVector3 4 5 6) (300, 0, 0)%Z [])).
  reflexivity.
Defined.

(** ** [add_obj] *)

Lemma set_selected_last (objs : list Bpy.Object) (obj : Bpy.Object) :
  Bpy.set_selected (length objs) (objs ++ [obj]) =
  objs ++ [Bpy.mkObject (Bpy.data obj) (Bpy.name obj) true (Bpy.mode obj)].
Proof.
  induction objs as [|o objs IH]; cbn; [reflexivity|].
  f_equal. exact IH.
Qed.

Lemma add_obj_value (data : Bpy.ObjectData) (obj_name : String.string)
    (deselect_others : bool) (scene : Bpy.Scene) :
  Bpy.add_obj data obj_name deselect_others scene =
  (let objs := if deselect_others then map Bpy.deselect (Bpy.objects scene)
               else Bpy.objects scene in
   let objs' := objs ++ [Bpy.mkObject data obj_name true "OBJECT"%string] in
   (Bpy.mkScene objs'
      match Bpy.active scene with
      | None => Some (length objs)
      | Some a =>
          match nth_error objs' a with
          | Some obj =>
              if String.eqb (Bpy.mode obj) "OBJECT" then Some (length objs) else Some a
          | None => Some a
          end
      end,
    length objs)).
Proof.
  unfold Bpy.add_obj. cbv zeta. rewrite set_selected_last. reflexivity.
Qed.

(** X15: after [add_obj] with [deselect_others], the new object is the only
    selected object of the scene. *)
Theorem add_obj_deselect_others_selects_only_new
    (data : Bpy.ObjectData) (obj_name : String.string) (scene : Bpy.Scene)
    (j : nat) (obj : Bpy.Object)
    (Hobj : nth_error (Bpy.objects (fst (Bpy.add_obj data obj_name true scene))) j
            = Some obj) :
  Bpy.select obj = true <-> j = snd (Bpy.add_obj data obj_name true scene).
Proof.
  rewrite add_obj_value in *. cbn [fst snd Bpy.objects] in *.
  rewrite length_map in *.
  destruct (Nat.lt_ge_cases j (length (Bpy.objects scene))) as [Hlt | Hge].
  - rewrite nth_error_app1 in Hobj by (rewrite length_map; exact Hlt).
    rewrite nth_error_map in Hobj.
    destruct (nth_error (Bpy.objects scene) j) as [o|]; [|discriminate].
    injection Hobj as <-. cbn. split; [discriminate | lia].
  - rewrite nth_error_app2 in Hobj by (rewrite length_map; exact Hge).
    rewrite length_map in Hobj.
    destruct (j - length (Bpy.objects scene))%nat as [|k] eqn:Hk.
    + injection Hobj as <-. cbn. split; [lia | reflexivity].
    + destruct k; discriminate.
Qed.

Lemma add_obj_deselect_others_selects_only_new_witness :
  Bpy.select (Bpy.mkObject (Bpy.MeshData []) "Point_Cloud"%string true "OBJECT"%string)
    = true <->
  2%nat = snd (Bpy.add_obj (Bpy.MeshData []) "Point_Cloud"%string true example_bpy_scene).
Proof.
  apply (add_obj_deselect_others_selects_only_new (Bpy.MeshData [])
           "Point_Cloud"%string example_bpy_scene 2).
  reflexivity.
Defined.



(** ** Store level and value level agree *)

(** X17: on a reference to a 3x3 matrix or to a 3-vector, the store-level
    [invert_y_and_z_axis] allocates exactly one object, the copy, returns the
    reference to it, and the object holds what the value-level function
    computes from the value of the argument. *)
Theorem store_invert_y_and_z_axis_computes_value
    (h : Heap.heap) (rotation translation_vec : Heap.ref) (m : Matrix3) (v : Vector3)
    (Hm : nth_error h rotation = Some (Heap.OMatrix3 m))
    (Hv : nth_error h translation_vec = Some (Heap.OVector3 v)) :
  exists (m' : Matrix3) (v' : Vector3),
    invert_y_and_z_axis m = Ok m' /\
    invert_y_and_z_axis v = Ok v' /\
    Heap.invert_y_and_z_axis rotation h = (Ok (length h), h ++ [Heap.OMatrix3 m']) /\
    Heap.invert_y_and_z_axis translation_vec h = (Ok (length h), h ++ [Heap.OVector3 v']).
Proof.
  rewrite invert_y_and_z_axis_Matrix3, invert_y_and_z_axis_Vector3.
  do 2 eexists. split; [reflexivity|]. split; [reflexivity|]. split.
  - apply run_invert_y_and_z_axis_Matrix3. exact Hm.
  - apply run_invert_y_and_z_axis_Vector3. exact Hv.
Qed.

Lemma store_invert_y_and_z_axis_computes_value_witness :
  exists (m' : Matrix3) (v' : Vector3),
    invert_y_and_z_axis identity3 = Ok m' /\
    invert_y_and_z_axis (mkVector3 1 2 3) = Ok v' /\
    Heap.invert_y_and_z_axis 0%nat
      [Heap.OMatrix3 identity3; Heap.OVector3 (mkVector3 1 2 3)] =
      (Ok 2%nat,
       [Heap.OMatrix3 identity3; Heap.OVector3 (mkVector3 1 2 3)] ++ [Heap.OMatrix3 m']) /\
    Heap.invert_y_and_z_axis 1%nat
      [Heap.OMatrix3 identity3; Heap.OVector3 (mkVector3 1 2 3)] =
      (Ok 2%nat,
       [Heap.OMatrix3 identity3; Heap.OVector3 (mkVector3 1 2 3)] ++ [Heap.OVector3 v']).
Proof.
  apply (store_invert_y_and_z_axis_computes_value
           [Heap.OMatrix3 identity3; Heap.OVector3 (mkVector3 1 2 3)] 0%nat 1%nat
           identity3 (mkVector3 1 2 3)); reflexivity.
Defined.

(** X18: on references to a 3-vector and a 3x3 matrix, the store-level
    [get_world_matrix_from_translation_vec] never raises; it allocates six
    objects, five temporaries and then the returned matrix, and the returned
    matrix holds what the value-level function computes from the values of
    the arguments. *)
Theorem store_world_matrix_computes_value
    (h : Heap.heap) (translation_vec rotation : Heap.ref) (t : Vector3) (r : Matrix3)
    (Ht : nth_error h translation_vec = Some (Heap.OVector3 t))
    (Hr : nth_error h rotation = Some (Heap.OMatrix3 r)) :
  exists (w : Matrix4) (temporaries : list Heap.object),
    length temporaries = 5%nat /\
    get_world_matrix_from_translation_vec t r = Ok w /\
    Heap.get_world_matrix_from_translation_vec translation_vec rotation h =
      (Ok (length h + 5)%nat, h ++ (temporaries ++ [Heap.OMatrix4 w])).
Proof.
  exact (run_get_world_matrix_from_translation_vec h translation_vec rotation t r Ht Hr).
Qed.

Lemma store_world_matrix_computes_value_witness :
  exists (w : Matrix4) (temporaries : list Heap.object),
    length temporaries = 5%nat /\
    get_world_matrix_from_translation_vec (mkVector3 1 2 3) identity3 = Ok w /\
    Heap.get_world_matrix_from_translation_vec 1%nat 0%nat
      [Heap.OMatrix3 identity3; Heap.OVector3 (mkVector3 1 2 3)] =
      (Ok (2 + 5)%nat,
       [Heap.OMatrix3 identity3; Heap.OVector3 (mkVector3 1 2 3)]
         ++ (temporaries ++ [Heap.OMatrix4 w])).
Proof.
  apply (store_world_matrix_computes_value
           [Heap.OMatrix3 identity3; Heap.OVector3 (mkVector3 1 2 3)] 1%nat 0%nat
           (mkVector3 1 2 3) identity3); reflexivity.
Defined.
